(** * dynamiq agents: response parsing, prompt rendering and tool dispatch

    A shallow embedding of [dynamiq/nodes/agents/base.py] and
    [dynamiq/nodes/agents/exceptions.py].

    Python text is a sequence of Unicode code points: a [str] is a
    [list N].  Methods of [Agent] that read or write [self] are functions
    over an explicit [AgentState]; a raised exception is the [Raise]
    outcome of a computation, and the state reached before the raise is
    kept, as Python keeps the mutations made before an exception. *)

From Stdlib Require Import NArith ZArith Ascii String List Bool Lia Floats.
From stdpp Require Import base option list gmap pretty.

Set Warnings "-register-all".
Local Open Scope N_scope.

(** ** Python text *)

Abbreviation str := (list N).

Module Str.

(** [hexval c]: the value of a hexadecimal digit. *)
Definition hexval (c : N) : N :=
  if (48 <=? c) && (c <=? 57) then c - 48
  else if (97 <=? c) && (c <=? 102) then c - 87
  else if (65 <=? c) && (c <=? 70) then c - 55
  else 0.

(** The escapes of a Python string literal that the sources use:
    backslash-n, backslash-t, backslash-r, a doubled backslash and
    backslash-x followed by two hexadecimal digits. *)
Fixpoint unescape (l : str) : str :=
  match l with
  | [] => []
  | c :: r =>
      if c =? 92 then
        match r with
        | [] => [c]
        | e :: r' =>
            if e =? 110 then 10 :: unescape r'
            else if e =? 116 then 9 :: unescape r'
            else if e =? 114 then 13 :: unescape r'
            else if e =? 92 then 92 :: unescape r'
            else if e =? 120 then
              match r' with
              | h1 :: h2 :: r'' => (16 * hexval h1 + hexval h2) :: unescape r''
              | _ => c :: unescape r
              end
            else c :: unescape r
        end
      else c :: unescape r
  end.

(** [py "..."] is the text a Python literal with the same body denotes. *)
Definition py (s : string) : str :=
  unescape (map N_of_ascii (list_ascii_of_string s)).

(** [str.isspace] on one code point; it is also the class [\s] of [re]
    on text patterns, and the set [str.strip] and [str.split] remove. *)
Definition isspace (c : N) : bool :=
  ((9 <=? c) && (c <=? 13)) || ((28 <=? c) && (c <=? 32))
  || (c =? 133) || (c =? 160) || (c =? 5760)
  || ((8192 <=? c) && (c <=? 8202))
  || (c =? 8232) || (c =? 8233) || (c =? 8239) || (c =? 8287) || (c =? 12288).

Fixpoint lstrip (s : str) : str :=
  match s with
  | [] => []
  | c :: r => if isspace c then lstrip r else s
  end.

Definition rstrip (s : str) : str := rev (lstrip (rev s)).

(** [s.strip()] *)
Definition strip (s : str) : str := rstrip (lstrip s).

(** [s.startswith(p)] *)
Fixpoint startswith (p s : str) : bool :=
  match p, s with
  | [], _ => true
  | _ :: _, [] => false
  | a :: p', b :: s' => (a =? b) && startswith p' s'
  end.

(** [s.find(sub)], with [None] for -1. *)
Fixpoint find (sub s : str) : option nat :=
  if startswith sub s then Some 0%nat
  else match s with
       | [] => None
       | _ :: r => S <$> find sub r
       end.

(** Whether the code point [c] is absent from [s]. *)
Definition lacks (c : N) (s : str) : bool := forallb (fun x => negb (x =? c)) s.

(** [sub in s] *)
Definition contains (sub s : str) : bool := bool_decide (is_Some (find sub s)).

(** [s.replace(old, new)] for a non-empty [old]: occurrences are replaced
    from the left and do not overlap.  [skip] counts the code points of
    an occurrence still to be passed over. *)
Fixpoint replace_from (old new : str) (skip : nat) (s : str) : str :=
  match s with
  | [] => []
  | c :: r =>
      match skip with
      | S k => replace_from old new k r
      | O =>
          if startswith old s
          then new ++ replace_from old new (length old - 1) r
          else c :: replace_from old new 0 r
      end
  end.

Definition replace (old new s : str) : str := replace_from old new 0 s.

(** [sep.join(l)] *)
Fixpoint join (sep : str) (l : list str) : str :=
  match l with
  | [] => []
  | [x] => x
  | x :: r => x ++ sep ++ join sep r
  end.

(** [s.split()]: the maximal runs of code points that are not space. *)
Fixpoint split_ws_from (cur : str) (s : str) : list str :=
  match s with
  | [] => match cur with [] => [] | _ => [rev cur] end
  | c :: r =>
      if isspace c
      then match cur with
           | [] => split_ws_from [] r
           | _ => rev cur :: split_ws_from [] r
           end
      else split_ws_from (c :: cur) r
  end.

Definition split_ws (s : str) : list str := split_ws_from [] s.

(** [s.split(sep)] for a separator of one code point. *)
Fixpoint split_on_from (sep : N) (cur : str) (s : str) : list str :=
  match s with
  | [] => [rev cur]
  | c :: r =>
      if c =? sep then rev cur :: split_on_from sep [] r
      else split_on_from sep (c :: cur) r
  end.

Definition split_on (sep : N) (s : str) : list str := split_on_from sep [] s.

(** The line boundaries of [str.splitlines], the pair CR LF apart. *)
Definition is_linebreak (c : N) : bool :=
  ((10 <=? c) && (c <=? 13)) || ((28 <=? c) && (c <=? 30))
  || (c =? 133) || (c =? 8232) || (c =? 8233).

(** [s.splitlines()] *)
Fixpoint splitlines_from (cur : str) (s : str) : list str :=
  match s with
  | [] => match cur with [] => [] | _ => [rev cur] end
  | c :: r =>
      if c =? 13 then
        match r with
        | c2 :: r' =>
            if c2 =? 10 then rev cur :: splitlines_from [] r'
            else rev cur :: splitlines_from [] r
        | [] => rev cur :: splitlines_from [] r
        end
      else if is_linebreak c then rev cur :: splitlines_from [] r
      else splitlines_from (c :: cur) r
  end.

Definition splitlines (s : str) : list str := splitlines_from [] s.

(** *** [textwrap.dedent]

    The library function, line by line: a line of blanks and tabs only
    becomes empty; the margin is the longest common prefix of the
    leading blanks and tabs of the lines that hold something else; the
    margin is removed from every line that starts with it. *)
Definition is_blank (c : N) : bool := (c =? 32) || (c =? 9).

Fixpoint indent_of (l : str) : str :=
  match l with
  | c :: r => if is_blank c then c :: indent_of r else []
  | [] => []
  end.

Definition blank_line (l : str) : str :=
  if forallb is_blank l then [] else l.

Fixpoint common_prefix (a b : str) : str :=
  match a, b with
  | x :: a', y :: b' => if x =? y then x :: common_prefix a' b' else []
  | _, _ => []
  end.

Definition margin_of (lines : list str) : option str :=
  fold_left
    (fun margin l =>
       match l with
       | [] => margin
       | _ => match margin with
              | None => Some (indent_of l)
              | Some m => Some (common_prefix m (indent_of l))
              end
       end)
    lines None.

Definition remove_margin (m l : str) : str :=
  if startswith m l then drop (length m) l else l.

Definition dedent (text : str) : str :=
  let lines := map blank_line (split_on 10 text) in
  match margin_of lines with
  | Some (c :: m) => join [10] (map (remove_margin (c :: m)) lines)
  | _ => join [10] lines
  end.

End Str.

Import Str.

(** ** Regular expressions

    The two patterns of the sources use literals, loops over one
    character class (greedy or lazy), an optional part, groups and the
    end anchor.  [rmatch] is the backtracking matcher of [re]: it tries
    the alternatives in priority order and hands the rest of the text and
    the groups captured so far to its continuation; a [None] from the
    continuation backtracks. *)

Module Re.

Inductive regex : Type :=
| Lit (s : str)                         (* the text itself *)
| Star (greedy : bool) (cls : N -> bool) (* [cls]* and [cls]*? *)
| Opt (r : regex)                       (* r? *)
| Group (i : nat) (r : regex)           (* ( r ), the i-th group *)
| Seq (r1 r2 : regex)
| Eos.                                  (* $ without MULTILINE *)

(** The groups that took part in a match, latest first. *)
Definition groups : Type := list (nat * str).

Fixpoint group (m : groups) (i : nat) : option str :=
  match m with
  | [] => None
  | (j, s) :: m' => if Nat.eqb i j then Some s else group m' i
  end.

Section Matcher.
Context {R : Type}.

Fixpoint star_greedy (cls : N -> bool) (s : str) (k : str -> option R) : option R :=
  match s with
  | c :: r =>
      if cls c
      then match star_greedy cls r k with
           | Some x => Some x
           | None => k s
           end
      else k s
  | [] => k []
  end.

Fixpoint star_lazy (cls : N -> bool) (s : str) (k : str -> option R) : option R :=
  match k s with
  | Some x => Some x
  | None =>
      match s with
      | c :: r => if cls c then star_lazy cls r k else None
      | [] => None
      end
  end.

(** [$]: at the end of the text, or before a newline that ends it. *)
Definition at_end (s : str) : bool :=
  match s with
  | [] => true
  | [c] => c =? 10
  | _ => false
  end.

Fixpoint rmatch (r : regex) (s : str) (m : groups)
    (k : str -> groups -> option R) : option R :=
  match r with
  | Lit l => if startswith l s then k (drop (length l) s) m else None
  | Star true cls => star_greedy cls s (fun s' => k s' m)
  | Star false cls => star_lazy cls s (fun s' => k s' m)
  | Opt r1 =>
      match rmatch r1 s m k with
      | Some x => Some x
      | None => k s m
      end
  | Group i r1 =>
      rmatch r1 s m
        (fun s' m' => k s' ((i, take (length s - length s') s) :: m'))
  | Seq r1 r2 => rmatch r1 s m (fun s' m' => rmatch r2 s' m' k)
  | Eos => if at_end s then k s m else None
  end.
End Matcher.

(** [re.search(r, s, re.DOTALL)]: the match at the leftmost position
    that has one. *)
Fixpoint search (r : regex) (s : str) : option groups :=
  match rmatch r s [] (fun _ m => Some m) with
  | Some m => Some m
  | None =>
      match s with
      | [] => None
      | _ :: s' => search r s'
      end
  end.

(** The dot under [re.DOTALL]. *)
Definition any (c : N) : bool := true.

(** What a greedy loop over [cls] leaves when it takes all it can. *)
Fixpoint skip_while (cls : N -> bool) (s : str) : str :=
  match s with
  | c :: r => if cls c then skip_while cls r else s
  | [] => []
  end.

End Re.

Import Re.

(** ** Python values, exceptions and outcomes *)

(** The values the agent handles: what [json.loads] returns, what a tool
    takes and reports, what a prompt variable holds.  A dictionary keeps
    its insertion order. *)
Inductive pyval : Type :=
| VNone
| VBool (b : bool)
| VInt (z : Z)
| VFloat (f : float)
| VStr (s : str)
| VList (l : list pyval)
| VDict (d : list (str * pyval))
| VSet (l : list pyval).

(** [bool(v)] *)
Definition truthy (v : pyval) : bool :=
  match v with
  | VNone => false
  | VBool b => b
  | VInt z => negb (Z.eqb z 0)
  | VFloat f => negb (PrimFloat.eqb f 0%float)
  | VStr s => negb (bool_decide (s = []))
  | VList l => match l with [] => false | _ => true end
  | VDict d => match d with [] => false | _ => true end
  | VSet l => match l with [] => false | _ => true end
  end.

(** Whether [hash(v)] is defined: lists, dictionaries and sets have none. *)
Definition hashable (v : pyval) : bool :=
  match v with
  | VList _ | VDict _ | VSet _ => false
  | _ => true
  end.

(** [type(v).__name__] *)
Definition type_name (v : pyval) : str :=
  match v with
  | VNone => py "NoneType"
  | VBool _ => py "bool"
  | VInt _ => py "int"
  | VFloat _ => py "float"
  | VStr _ => py "str"
  | VList _ => py "list"
  | VDict _ => py "dict"
  | VSet _ => py "set"
  end.

(** The classes of [exceptions.py] below [RecoverableAgentException]. *)
Inductive agent_exception : Type :=
| ActionParsingException
| AgentUnknownToolException
| ToolExecutionException
| InvalidActionException
| AgentMaxLoopsReached.

(** The built-in exceptions the sources raise or let through. *)
Inductive builtin_exception : Type :=
| ValueError
| KeyError
| TypeError
| IndexError
| AttributeError
| JSONDecodeError
| NotModelled.

(** An exception object: one of the agent's own classes with its
    arguments and its [recoverable] attribute
    (its constructor takes the arguments and [recoverable], true unless given), or
    a built-in one, which has no such attribute. *)
Inductive exn : Type :=
| RecoverableAgentException (cls : agent_exception) (args : list pyval) (recoverable : bool)
| PyException (cls : builtin_exception) (args : list pyval).

(** Whether the loop may re-prompt after [e]: it must carry a true
    [recoverable] attribute. *)
Definition is_recoverable (e : exn) : bool :=
  match e with
  | RecoverableAgentException _ _ r => r
  | PyException _ _ => false
  end.

(** The [TypeError] of hashing [v], a value that has no hash: its text
    names the type of [v]. *)
Definition unhashable (v : pyval) : exn :=
  PyException TypeError [VStr (py "unhashable type: '" ++ type_name v ++ py "'")].

Inductive result (A : Type) : Type :=
| Return (a : A)
| Raise (e : exn).
Arguments Return {A} a.
Arguments Raise {A} e.

#[global] Instance result_ret : MRet result := @Return.
#[global] Instance result_bind : MBind result :=
  fun A B f c => match c with Return a => f a | Raise e => Raise e end.

(** [try: c  except Exception as e: h e] *)
Definition try_except {A} (c : result A) (h : exn -> result A) : result A :=
  match c with
  | Return a => Return a
  | Raise e => h e
  end.

(** A method of an object with state [S]: the outcome and the state left
    behind, also when it raises. *)
Definition M (S A : Type) : Type := S -> result A * S.

#[global] Instance M_ret {S} : MRet (M S) := fun A a s => (Return a, s).
#[global] Instance M_bind {S} : MBind (M S) :=
  fun A B f c s =>
    match c s with
    | (Return a, s') => f a s'
    | (Raise e, s') => (Raise e, s')
    end.

Definition raise {S A} (e : exn) : M S A := fun s => (Raise e, s).
Definition gets {S A} (f : S -> A) : M S A := fun s => (Return (f s), s).
Definition modify {S} (f : S -> S) : M S unit := fun s => (Return tt, f s).
Definition lift_result {S A} (r : result A) : M S A := fun s => (r, s).

(** [try: c  except Exception as e: h e] for a method. *)
Definition try_except_M {S A} (c : M S A) (h : exn -> M S A) : M S A :=
  fun s =>
    match c s with
    | (Return a, s') => (Return a, s')
    | (Raise e, s') => h e s'
    end.

(** [d[k]] on a dictionary: [KeyError] when the key is missing. *)
Definition subscript (d : gmap str pyval) (k : str) : result pyval :=
  match d !! k with
  | Some v => Return v
  | None => Raise (PyException KeyError [VStr k])
  end.

(** The set display [{v}]: [TypeError] when [v] has no hash. *)
Definition set_display (v : pyval) : result pyval :=
  if hashable v then Return (VSet [v])
  else Raise (unhashable v).

(** ** The Python library

    The development is parametric in the library functions whose full
    definition is long: every theorem over [PyLib] holds whatever they
    compute. *)
Class PyLib : Type := {
  (** [template.format] with [variables] as its keyword arguments *)
  str_format : str -> gmap str pyval -> result str;
  (** [s.upper()] *)
  str_upper : str -> str;
  (** [json.loads(s)] *)
  json_loads : str -> result pyval;
  (** [str(v)], which is also how an f-string renders [v] *)
  py_str : pyval -> str;
  (** [repr(v)] *)
  py_repr : pyval -> str;
  (** [datetime.now().strftime("%d %B %Y")], read once when the module
      [base.py] is loaded *)
  strftime_now : str;
  (** [repr] of the manager's bound method of that name *)
  method_repr : str -> str;
}.

(** ** Nodes and run results *)

(** Modelled from the spec: the status enumeration [RunnableStatus] of
    [dynamiq.runnables], success or failure; these sources only compare
    a status with [SUCCESS], and any further member is an [OtherStatus]. *)
Inductive RunnableStatus : Type :=
| SUCCESS
| FAILURE
| OtherStatus (label : str).

Definition is_success (st : RunnableStatus) : bool :=
  match st with SUCCESS => true | _ => false end.

(** Modelled from the spec: [RunnableResult] of [dynamiq.runnables],
    what [Node.run] returns, with the status and the [output]
    dictionary these sources read. *)
Record RunnableResult : Type := {
  status : RunnableStatus;
  output : gmap str pyval;
}.

(** Modelled from the spec: [NodeDependency(node=n).to_dict()] of
    [dynamiq.nodes.node], the lineage entry that names its producer. *)
Record NodeDependency : Type := { dep_node : str }.

(** Modelled from the spec: [Node] of [dynamiq.nodes.node], the language
    model or a tool, by the attributes these sources read and its
    [run(input_data, prompt, run_depends)], which reports a status or
    raises. *)
Record Node : Type := {
  node_id : str;
  node_name : str;
  node_description : str;
  node_run : pyval -> option str -> list NodeDependency -> result RunnableResult;
}.

Definition dependency_of (n : Node) : NodeDependency := {| dep_node := node_id n |}.

(** The dictionary [execute] returns. *)
Record ExecutionResult : Type := {
  content : pyval;
  intermediate_steps : gmap Z pyval;
}.

(** ** Agent *)

Module Agent.

(** The fields of an [Agent] and its private attributes.  [llm_prompts]
    and [streamed] record the calls made to the model and to the
    streaming callback, latest last. *)
Record AgentState : Type := {
  llm : Node;
  tools : list Node;
  name : str;
  role : option str;
  goal : option str;
  max_loops : Z;
  streaming_enabled : bool;
  _prompt_blocks : list (str * str);
  _prompt_variables : gmap str pyval;
  _intermediate_steps : gmap Z pyval;
  _run_depends : list NodeDependency;
  llm_prompts : list str;
  streamed : list ExecutionResult;
}.

Definition set_prompt_blocks (b : list (str * str)) (s : AgentState) : AgentState :=
  {| llm := llm s; tools := tools s; name := name s; role := role s; goal := goal s;
     max_loops := max_loops s; streaming_enabled := streaming_enabled s;
     _prompt_blocks := b; _prompt_variables := _prompt_variables s;
     _intermediate_steps := _intermediate_steps s; _run_depends := _run_depends s;
     llm_prompts := llm_prompts s; streamed := streamed s |}.

Definition set_prompt_variables (v : gmap str pyval) (s : AgentState) : AgentState :=
  {| llm := llm s; tools := tools s; name := name s; role := role s; goal := goal s;
     max_loops := max_loops s; streaming_enabled := streaming_enabled s;
     _prompt_blocks := _prompt_blocks s; _prompt_variables := v;
     _intermediate_steps := _intermediate_steps s; _run_depends := _run_depends s;
     llm_prompts := llm_prompts s; streamed := streamed s |}.

Definition set_intermediate_steps (i : gmap Z pyval) (s : AgentState) : AgentState :=
  {| llm := llm s; tools := tools s; name := name s; role := role s; goal := goal s;
     max_loops := max_loops s; streaming_enabled := streaming_enabled s;
     _prompt_blocks := _prompt_blocks s; _prompt_variables := _prompt_variables s;
     _intermediate_steps := i; _run_depends := _run_depends s;
     llm_prompts := llm_prompts s; streamed := streamed s |}.

Definition set_run_depends (d : list NodeDependency) (s : AgentState) : AgentState :=
  {| llm := llm s; tools := tools s; name := name s; role := role s; goal := goal s;
     max_loops := max_loops s; streaming_enabled := streaming_enabled s;
     _prompt_blocks := _prompt_blocks s; _prompt_variables := _prompt_variables s;
     _intermediate_steps := _intermediate_steps s; _run_depends := d;
     llm_prompts := llm_prompts s; streamed := streamed s |}.

Definition log_llm_prompt (p : str) (s : AgentState) : AgentState :=
  {| llm := llm s; tools := tools s; name := name s; role := role s; goal := goal s;
     max_loops := max_loops s; streaming_enabled := streaming_enabled s;
     _prompt_blocks := _prompt_blocks s; _prompt_variables := _prompt_variables s;
     _intermediate_steps := _intermediate_steps s; _run_depends := _run_depends s;
     llm_prompts := llm_prompts s ++ [p]; streamed := streamed s |}.

Definition log_streamed (r : ExecutionResult) (s : AgentState) : AgentState :=
  {| llm := llm s; tools := tools s; name := name s; role := role s; goal := goal s;
     max_loops := max_loops s; streaming_enabled := streaming_enabled s;
     _prompt_blocks := _prompt_blocks s; _prompt_variables := _prompt_variables s;
     _intermediate_steps := _intermediate_steps s; _run_depends := _run_depends s;
     llm_prompts := llm_prompts s; streamed := streamed s ++ [r] |}.

(** [d[k] = v] on a dictionary kept in insertion order: a known key
    keeps its place. *)
Fixpoint dict_set {V} (k : str) (v : V) (d : list (str * V)) : list (str * V) :=
  match d with
  | [] => [(k, v)]
  | (k', v') :: d' =>
      if bool_decide (k' = k) then (k, v) :: d' else (k', v') :: dict_set k v d'
  end.

(** [d.get(k)] *)
Fixpoint dict_get {V} (k : str) (d : list (str * V)) : option V :=
  match d with
  | [] => None
  | (k', v) :: d' => if bool_decide (k' = k) then Some v else dict_get k d'
  end.

(** The text of the exception [_parse_action] raises. *)
Definition parse_error_message : str :=
  py "Error: Could not parse action and action input. Please rewrite in the appropriate Action/Action Input format with action input as a valid dictionary Make sure all quotes are present.".

(** The text [_get_tool] raises for [action]; the literal of the source
    is continued over three lines, whose indentation it keeps. *)
Definition unknown_tool_message (action : str) : str :=
  py "Unknown tool: " ++ action ++
  py " Use only available tools and provide only its name in action field.                 Do not provide any aditional reasoning in action field.                  Reiterate and provide proper value for action field or say that you cannot answer the question.".

(** The exception [_parse_action] raises. *)
Definition parse_error : exn :=
  RecoverableAgentException ActionParsingException [VStr parse_error_message] true.

(** The exception [_get_tool] raises; [recoverable] keeps its default. *)
Definition unknown_tool (action : str) : exn :=
  RecoverableAgentException AgentUnknownToolException
    [VStr (unknown_tool_message action)] true.

(** One step of the dictionary comprehension of [tool_by_names]. *)
Definition register (d : gmap str Node) (tool : Node) : gmap str Node :=
  <[node_name tool := tool]> d.

(** A failure payload as a node reports it: the error content, which
    the set display of lines 246-250 must be able to hold, and the
    [recoverable] flag. *)
Definition failure_payload (out : gmap str pyval) (c r : pyval) : Prop :=
  out !! py "content" = Some c /\ out !! py "recoverable" = Some r /\ hashable c = true.

(** What [_run_tool] raises for the failure content [c] and flag [r]. *)
Definition tool_failure (c r : pyval) : exn :=
  if truthy r
  then RecoverableAgentException ToolExecutionException [VSet [c]] true
  else PyException ValueError [VSet [c]].

(** The pattern of [_parse_action]. *)
Definition action_pattern : regex :=
  Seq (Lit (py "Action:"))
  (Seq (Star true isspace)
  (Seq (Group 1 (Star false any))
  (Seq (Lit (py "\nAction Input:"))
  (Seq (Star true isspace)
  (Seq (Group 2 (Seq (Opt (Group 3 (Lit (py "{\n")))) (Star false any)))
  (Seq (Star true (fun c => negb (c =? 125))) Eos)))))).

(** The pattern of [_extract_final_answer]. *)
Definition answer_pattern : regex :=
  Seq (Lit (py "Answer:")) (Seq (Star true isspace) (Group 1 (Star true any))).

(** [m.group(i).strip()]: a group that took no part is [None], which has
    no [strip]. *)
Definition group_strip (m : groups) (i : nat) : result str :=
  match group m i with
  | Some g => Return (strip g)
  | None => Raise (PyException AttributeError [])
  end.

(** Lines 199-200: the text handed to [json.loads], from the stripped
    second group. *)
Definition unfence (action_input : str) : str :=
  if contains (py "```json") action_input
  then strip (replace (py "```") [] (replace (py "```json") [] action_input))
  else action_input.

Section WithPython.
Context `{PyLib}.

Definition DEFAULT_INTRODUCTION : str :=
  py "You are a helpful AI assistant designed to help with various tasks.".

Definition DEFAULT_DATE : str := strftime_now.

(** The property [tool_description]. *)
Definition tool_description (s : AgentState) : str :=
  match tools s with
  | [] => []
  | _ => join (py "\n")
           (map (fun tool => node_name tool ++ py ": " ++ strip (node_description tool))
                (tools s))
  end.

(** The property [tool_names]. *)
Definition tool_names (s : AgentState) : str :=
  match tools s with
  | [] => []
  | _ => join (py ",") (map node_name (tools s))
  end.

(** The property [tool_by_names]: the dictionary is built at every
    read, a later tool replacing an earlier one of the same name. *)
Definition tool_by_names (s : AgentState) : gmap str Node :=
  match tools s with
  | [] => ∅
  | _ => fold_left register (tools s) ∅
  end.

Definition or_empty (o : option str) : str :=
  match o with
  | Some (c :: r) => c :: r
  | _ => []
  end.

Definition _init_prompt_blocks : M AgentState unit :=
  s ← gets (fun s => s);
  modify (set_prompt_blocks
    [ (py "introduction", DEFAULT_INTRODUCTION);
      (py "role", or_empty (role s));
      (py "goal", or_empty (goal s));
      (py "date", DEFAULT_DATE);
      (py "tools", py "{tool_description}");
      (py "instructions", []);
      (py "output_format", py "Provide your answer in a clear and concise manner.");
      (py "request", py "User request: {input}");
      (py "context", []) ]);;
  modify (set_prompt_variables
    (<[py "tool_description" := VStr (tool_description s)]>
       (<[py "user_input" := VStr []]> ∅))).

(** [Agent(llm=.., tools=.., name=.., role=.., goal=.., ..)] *)
Definition __init__ (llm : Node) (tools : list Node) (name : str)
    (role goal : option str) (max_loops : Z) (streaming_enabled : bool) : AgentState :=
  snd (_init_prompt_blocks
    {| llm := llm; tools := tools; name := name; role := role; goal := goal;
       max_loops := max_loops; streaming_enabled := streaming_enabled;
       _prompt_blocks := []; _prompt_variables := ∅;
       _intermediate_steps := ∅; _run_depends := [];
       llm_prompts := []; streamed := [] |}).

Definition add_block (block_name content : str) : M AgentState unit :=
  modify (fun s => set_prompt_blocks (dict_set block_name content (_prompt_blocks s)) s).

Definition set_prompt_variable (variable_name : str) (value : pyval) : M AgentState unit :=
  modify (fun s => set_prompt_variables (<[variable_name := value]> (_prompt_variables s)) s).

Definition reset_run_state : M AgentState unit :=
  modify (set_intermediate_steps ∅);;
  modify (set_run_depends []).

(** The loop of [generate_prompt] over the blocks, in their order. *)
Fixpoint render_blocks (block_names : option (list str))
    (temp_variables : gmap str pyval) (blocks : list (str * str))
    (prompt : str) : result str :=
  match blocks with
  | [] => Return prompt
  | (block, content) :: rest =>
      if match block_names with
         | None => true
         | Some names => bool_decide (block ∈ names)
         end
      then
        match content with
        | [] => render_blocks block_names temp_variables rest prompt
        | _ =>
            formatted_content ← str_format content temp_variables;
            render_blocks block_names temp_variables rest
              (prompt ++ str_upper block ++ py ":\n" ++ formatted_content ++ py "\n\n")
        end
      else render_blocks block_names temp_variables rest prompt
  end.

(** Lines 290-298: what [generate_prompt] does to the assembled text. *)
Definition normalize_prompt (prompt : str) : str :=
  let prompt := dedent prompt in
  let lines := splitlines prompt in
  let stripped_lines :=
    map strip (filter (fun line => strip line ≠ []) lines) in
  let prompt := join (py "\n") stripped_lines in
  join (py "\n")
    (map (fun line => join (py " ") (split_ws line)) (split_on 10 prompt)).

Definition generate_prompt (block_names : option (list str))
    (kwargs : gmap str pyval) : M AgentState str :=
  variables ← gets _prompt_variables;
  let temp_variables := kwargs ∪ variables in
  blocks ← gets _prompt_blocks;
  prompt ← lift_result (render_blocks block_names temp_variables blocks []);
  mret (normalize_prompt prompt).

Definition _run_llm (prompt : str) : M AgentState pyval :=
  try_except_M
    (s ← gets (fun s => s);
     modify (log_llm_prompt prompt);;
     llm_result ← lift_result (node_run (llm s) (VDict []) (Some prompt) (_run_depends s));
     modify (set_run_depends [dependency_of (llm s)]);;
     _ ← lift_result (subscript (output llm_result) (py "content"));
     if negb (is_success (status llm_result))
     then raise (PyException ValueError [VStr (py "LLM execution failed")])
     else lift_result (subscript (output llm_result) (py "content")))
    (fun e => raise e).

Definition _run_agent : M AgentState pyval :=
  formatted_prompt ← generate_prompt None ∅;
  try_except_M (_run_llm formatted_prompt) (fun e => raise e).

Definition execute (input_data : gmap str pyval) : M AgentState ExecutionResult :=
  reset_run_state;;
  modify (fun s => set_prompt_variables (input_data ∪ _prompt_variables s) s);;
  result ← _run_agent;
  steps ← gets _intermediate_steps;
  let execution_result := {| content := result; intermediate_steps := steps |} in
  enabled ← gets streaming_enabled;
  (if enabled : bool then modify (log_streamed execution_result) else mret tt);;
  mret execution_result.

(** The state after one [execute] call for each of [inputs], in turn. *)
Definition execute_each (inputs : list (gmap str pyval)) (s : AgentState) : AgentState :=
  fold_left (fun s input_data => snd (execute input_data s)) inputs s.

Definition _parse_action (output : str) : result (str * pyval) :=
  try_except
    (match search action_pattern output with
     | Some action_match =>
         action ← group_strip action_match 1;
         action_input ← group_strip action_match 2;
         action_input ← json_loads (unfence action_input);
         Return (action, action_input)
     | None => Raise (RecoverableAgentException ActionParsingException [] true)
     end)
    (fun e => Raise parse_error).

Definition _extract_final_answer (output : str) : result str :=
  match search answer_pattern output with
  | Some m => group_strip m 1
  | None => Return []
  end.

(** A [Node] object is true: the branch [not tool] is the one of a
    missing name. *)
Definition _get_tool (action : str) : M AgentState Node :=
  by_names ← gets tool_by_names;
  match by_names !! action with
  | Some tool => mret tool
  | None => raise (unknown_tool action)
  end.

Definition _run_tool (tool : Node) (tool_input : pyval) : M AgentState pyval :=
  depends ← gets _run_depends;
  tool_result ← lift_result (node_run tool tool_input None depends);
  modify (set_run_depends [dependency_of tool]);;
  if negb (is_success (status tool_result)) then
    logged ← lift_result (subscript (output tool_result) (py "content"));
    _ ← lift_result (set_display logged);
    recoverable ← lift_result (subscript (output tool_result) (py "recoverable"));
    if truthy recoverable then
      c ← lift_result (subscript (output tool_result) (py "content"));
      arg ← lift_result (set_display c);
      raise (RecoverableAgentException ToolExecutionException [arg] true)
    else
      c ← lift_result (subscript (output tool_result) (py "content"));
      arg ← lift_result (set_display c);
      raise (PyException ValueError [arg])
  else lift_result (subscript (output tool_result) (py "content")).

End WithPython.

End Agent.

(** ** AgentManager *)

Module AgentManager.
Import Agent.

(** A registered action: a callable taking the manager's agent part,
    with the text [repr] gives for it. *)
Record Callable : Type := {
  callable_repr : str;
  call : M AgentState pyval;
}.

(** An [AgentManager]: an [Agent] and the private [_actions], in
    insertion order. *)
Record ManagerState : Type := {
  agent : AgentState;
  _actions : list (str * Callable);
}.

Definition set_agent (a : AgentState) (m : ManagerState) : ManagerState :=
  {| agent := a; _actions := _actions m |}.

Definition set_actions (d : list (str * Callable)) (m : ManagerState) : ManagerState :=
  {| agent := agent m; _actions := d |}.

(** A method inherited from [Agent], run on the manager. *)
Definition lift {A} (c : M AgentState A) : M ManagerState A :=
  fun m => let (r, a) := c (agent m) in (r, set_agent a m).

(** [k in d] for a dictionary with text keys: [k] is hashed first. *)
Definition dict_contains {V} (k : pyval) (d : list (str * V)) : result bool :=
  if hashable k then
    Return (match k with
            | VStr key => bool_decide (is_Some (dict_get key d))
            | _ => false
            end)
  else Raise (unhashable k).

(** [d[k]] for a dictionary with text keys. *)
Definition dict_subscript {V} (k : pyval) (d : list (str * V)) : result V :=
  if hashable k then
    match k with
    | VStr key =>
        match dict_get key d with
        | Some v => Return v
        | None => Raise (PyException KeyError [k])
        end
    | _ => Raise (PyException KeyError [k])
    end
  else Raise (unhashable k).

Section WithPython.
Context `{PyLib}.

(** [repr] of the dictionary [_actions]. *)
Definition actions_repr (d : list (str * Callable)) : str :=
  py "{" ++
  join (py ", ")
    (map (fun kv => py_repr (VStr (fst kv)) ++ py ": " ++ callable_repr (snd kv)) d) ++
  py "}".

Definition invalid_action_message (action : pyval) (d : list (str * Callable)) : str :=
  py "Invalid or missing action: " ++ py_str action ++
  py ". Please choose action from " ++ actions_repr d.

(** The exception [execute] raises; [recoverable] keeps its default. *)
Definition invalid_action (action : pyval) (d : list (str * Callable)) : exn :=
  RecoverableAgentException InvalidActionException
    [VStr (invalid_action_message action d)] true.

(** The three default actions render the blocks of their own name and
    call the model. *)
Definition run_named (block : str) : M AgentState pyval :=
  prompt ← generate_prompt (Some [block]) ∅;
  _run_llm prompt.

Definition _plan : Callable :=
  {| callable_repr := method_repr (py "_plan"); call := run_named (py "plan") |}.
Definition _assign : Callable :=
  {| callable_repr := method_repr (py "_assign"); call := run_named (py "assign") |}.
Definition _final : Callable :=
  {| callable_repr := method_repr (py "_final"); call := run_named (py "final") |}.

Definition _init_actions : M ManagerState unit :=
  modify (set_actions [(py "plan", _plan); (py "assign", _assign); (py "final", _final)]).

Definition __init__ (llm : Node) (tools : list Node) (name : str)
    (role goal : option str) (max_loops : Z) (streaming_enabled : bool) : ManagerState :=
  snd (_init_actions
    {| agent := Agent.__init__ llm tools name role goal max_loops streaming_enabled;
       _actions := [] |}).

Definition add_action (name : str) (action : Callable) : M ManagerState unit :=
  modify (fun m => set_actions (dict_set name action (_actions m)) m).

Definition execute (input_data : gmap str pyval) : M ManagerState ExecutionResult :=
  lift reset_run_state;;
  let action := default VNone (input_data !! py "action") in
  actions ← gets _actions;
  invalid ← (if negb (truthy action) then mret true
             else present ← lift_result (dict_contains action actions);
                  mret (negb present));
  if invalid : bool then raise (invalid_action action actions)
  else
    lift (modify (fun s => set_prompt_variables (input_data ∪ _prompt_variables s) s));;
    chosen ← lift_result (dict_subscript action actions);
    _result_llm ← lift (call chosen);
    let result := VDict [(py "action", action); (py "result", _result_llm)] in
    steps ← gets (fun m => _intermediate_steps (agent m));
    let execution_result := {| content := result; intermediate_steps := steps |} in
    enabled ← gets (fun m => streaming_enabled (agent m));
    (if enabled : bool then lift (modify (log_streamed execution_result)) else mret tt);;
    mret execution_result.

End WithPython.

End AgentManager.

(** ** A model of the library functions

    Executable definitions of the functions of [PyLib], used where a
    statement is evaluated on a given input.  Each one computes what
    Python computes on the fragment its comment names and answers
    [NotModelled] or a placeholder outside it. *)

Module PyModel.

Definition of_string (s : string) : str := map N_of_ascii (list_ascii_of_string s).

(** [str(v)]: exact on [None], booleans, integers and text. *)
Definition model_str (v : pyval) : str :=
  match v with
  | VNone => py "None"
  | VBool true => py "True"
  | VBool false => py "False"
  | VInt z => of_string (pretty z)
  | VStr s => s
  | VFloat _ => py "<float>"
  | VList _ => py "<list>"
  | VDict _ => py "<dict>"
  | VSet _ => py "<set>"
  end.

(** [repr(v)]: exact on [None], booleans, integers, and on text of
    printable ASCII without quote or backslash. *)
Definition model_repr (v : pyval) : str :=
  match v with
  | VStr s => py "'" ++ s ++ py "'"
  | _ => model_str v
  end.

(** [s.upper()]: exact on ASCII text. *)
Definition model_upper (s : str) : str :=
  map (fun c => if (97 <=? c) && (c <=? 122) then c - 32 else c) s.

(** The value of the replacement field [name]: a plain keyword name is
    looked up; an empty or numeric name asks for a positional argument,
    and there is none. *)
Definition field_value (vars : gmap str pyval) (name : str) : result str :=
  match name with
  | [] => Raise (PyException IndexError [])
  | c :: _ =>
      if (48 <=? c) && (c <=? 57) then Raise (PyException IndexError [])
      else if existsb (fun x => (x =? 46) || (x =? 91) || (x =? 33) || (x =? 58)) name
      then Raise (PyException NotModelled [])
      else match vars !! name with
           | Some v => Return (model_str v)
           | None => Raise (PyException KeyError [VStr name])
           end
  end.

(** [template.format] with keyword arguments: doubled braces and
    replacement fields that are plain names.  [field] holds the name
    being read, latest code point first. *)
Fixpoint format_from (vars : gmap str pyval) (field : option str) (s : str) : result str :=
  match s with
  | [] =>
      match field with
      | None => Return []
      | Some _ => Raise (PyException ValueError [])
      end
  | c :: r =>
      match field with
      | Some name =>
          if c =? 125 then
            v ← field_value vars (rev name);
            rest ← format_from vars None r;
            Return (v ++ rest)
          else if c =? 123 then Raise (PyException NotModelled [])
          else format_from vars (Some (c :: name)) r
      | None =>
          if c =? 123 then
            match r with
            | c2 :: r' =>
                if c2 =? 123 then rest ← format_from vars None r'; Return (123 :: rest)
                else format_from vars (Some []) r
            | [] => Raise (PyException ValueError [])
            end
          else if c =? 125 then
            match r with
            | c2 :: r' =>
                if c2 =? 125 then rest ← format_from vars None r'; Return (125 :: rest)
                else Raise (PyException ValueError [])
            | [] => Raise (PyException ValueError [])
            end
          else rest ← format_from vars None r; Return (c :: rest)
      end
  end.

Definition model_format (template : str) (vars : gmap str pyval) : result str :=
  format_from vars None template.

(** *** [json.loads]: objects, arrays, text with the simple escapes,
    integers and the three literals. *)

Definition json_space (c : N) : bool :=
  (c =? 32) || (c =? 9) || (c =? 10) || (c =? 13).

Fixpoint skip_space (s : str) : str :=
  match s with
  | c :: r => if json_space c then skip_space r else s
  | [] => []
  end.

Definition is_digit (c : N) : bool := (48 <=? c) && (c <=? 57).

Definition decode_error {A} : result A := Raise (PyException JSONDecodeError []).
Definition not_modelled {A} : result A := Raise (PyException NotModelled []).

(** The text after an opening quote, up to the closing one. *)
Fixpoint scan_string (acc : str) (s : str) : result (str * str) :=
  match s with
  | [] => decode_error
  | c :: r =>
      if c =? 34 then Return (rev acc, r)
      else if c <? 32 then decode_error
      else if c =? 92 then
        match r with
        | e :: r' =>
            if e =? 34 then scan_string (34 :: acc) r'
            else if e =? 92 then scan_string (92 :: acc) r'
            else if e =? 47 then scan_string (47 :: acc) r'
            else if e =? 110 then scan_string (10 :: acc) r'
            else if e =? 116 then scan_string (9 :: acc) r'
            else if e =? 114 then scan_string (13 :: acc) r'
            else if e =? 98 then scan_string (8 :: acc) r'
            else if e =? 102 then scan_string (12 :: acc) r'
            else if e =? 117 then not_modelled
            else decode_error
        | [] => decode_error
        end
      else scan_string (c :: acc) r
  end.

Fixpoint scan_digits (acc : N) (s : str) : N * str :=
  match s with
  | c :: r => if is_digit c then scan_digits (10 * acc + (c - 48)) r else (acc, s)
  | [] => (acc, [])
  end.

(** An integer: no fraction or exponent may follow. *)
Definition scan_int (negative : bool) (s : str) : result (pyval * str) :=
  match s with
  | c :: r =>
      if is_digit c then
        let '(n, rest) := if c =? 48 then (0, r) else scan_digits 0 s in
        match rest with
        | d :: _ =>
            if (d =? 46) || (d =? 101) || (d =? 69) then not_modelled
            else Return (VInt (if negative then - Z.of_N n else Z.of_N n)%Z, rest)
        | [] => Return (VInt (if negative then - Z.of_N n else Z.of_N n)%Z, rest)
        end
      else if negative && (c =? 73) then not_modelled
      else decode_error
  | [] => decode_error
  end.

Definition after_literal (lit : str) (v : pyval) (s : str) : result (pyval * str) :=
  if startswith lit s then Return (v, drop (length lit) s) else decode_error.

(** [members]: [None] for a value, [Some (false, acc)] for the rest of
    an array and [Some (true, acc)] for the rest of an object, read
    after its opening bracket or after a comma. *)
Fixpoint scan_value (fuel : nat) (s : str) : result (pyval * str) :=
  match fuel with
  | O => decode_error
  | S fuel =>
      match skip_space s with
      | [] => decode_error
      | c :: r =>
          if c =? 34 then '(t, rest) ← scan_string [] r; Return (VStr t, rest)
          else if c =? 123 then
            match skip_space r with
            | c2 :: r2 =>
                if c2 =? 125 then Return (VDict [], r2)
                else scan_members fuel [] (c2 :: r2)
            | [] => decode_error
            end
          else if c =? 91 then
            match skip_space r with
            | c2 :: r2 =>
                if c2 =? 93 then Return (VList [], r2)
                else scan_elements fuel [] (c2 :: r2)
            | [] => decode_error
            end
          else if c =? 45 then scan_int true r
          else if is_digit c then scan_int false (c :: r)
          else if c =? 116 then after_literal (py "true") (VBool true) (c :: r)
          else if c =? 102 then after_literal (py "false") (VBool false) (c :: r)
          else if c =? 110 then after_literal (py "null") VNone (c :: r)
          else if (c =? 78) || (c =? 73) then not_modelled
          else decode_error
      end
  end
with scan_elements (fuel : nat) (acc : list pyval) (s : str) : result (pyval * str) :=
  match fuel with
  | O => decode_error
  | S fuel =>
      '(v, rest) ← scan_value fuel s;
      match skip_space rest with
      | c :: r =>
          if c =? 93 then Return (VList (rev (v :: acc)), r)
          else if c =? 44 then scan_elements fuel (v :: acc) r
          else decode_error
      | [] => decode_error
      end
  end
with scan_members (fuel : nat) (acc : list (str * pyval)) (s : str) : result (pyval * str) :=
  match fuel with
  | O => decode_error
  | S fuel =>
      match skip_space s with
      | c :: r =>
          if c =? 34 then
            '(k, rest) ← scan_string [] r;
            match skip_space rest with
            | c2 :: r2 =>
                if c2 =? 58 then
                  '(v, rest2) ← scan_value fuel r2;
                  match skip_space rest2 with
                  | c3 :: r3 =>
                      if c3 =? 125 then Return (VDict (Agent.dict_set k v acc), r3)
                      else if c3 =? 44 then scan_members fuel (Agent.dict_set k v acc) r3
                      else decode_error
                  | [] => decode_error
                  end
                else decode_error
            | [] => decode_error
            end
          else decode_error
      | [] => decode_error
      end
  end.

Definition model_loads (s : str) : result pyval :=
  '(v, rest) ← scan_value (S (length s)) s;
  match skip_space rest with
  | [] => Return v
  | _ => decode_error
  end.

Definition python : PyLib :=
  {| str_format := model_format;
     str_upper := model_upper;
     json_loads := model_loads;
     py_str := model_str;
     py_repr := model_repr;
     strftime_now := py "04 November 2026";
     method_repr := fun name => py "<bound method AgentManager." ++ name ++ py ">" |}.

End PyModel.

(** ** Sample nodes and agents

    The objects the worked cases below run on, built with the library
    model [PyModel.python]. *)

Module Sample.

(** A model that answers with the prompt it is given. *)
Definition echo_llm : Node :=
  {| node_id := py "llm-1"; node_name := py "LLM"; node_description := [];
     node_run := fun _ prompt _ =>
       Return {| status := SUCCESS;
                 output := {[ py "content" := VStr (default [] prompt) ]} |} |}.

(** A tool named [search] that succeeds with [answer]. *)
Definition search_tool (id answer : str) : Node :=
  {| node_id := id; node_name := py "search";
     node_description := py " Looks things up. ";
     node_run := fun _ _ _ =>
       Return {| status := SUCCESS; output := {[ py "content" := VStr answer ]} |} |}.

(** A tool that reports a failure with the given [recoverable] flag. *)
Definition failing_tool (recoverable : bool) : Node :=
  {| node_id := py "tool-f"; node_name := py "flaky"; node_description := py "Fails.";
     node_run := fun _ _ _ =>
       Return {| status := FAILURE;
                 output := {[ py "content" := VStr (py "boom");
                              py "recoverable" := VBool recoverable ]} |} |}.

(** A tool that reports a failure whose content is a dictionary, marked
    recoverable. *)
Definition structured_failure : Node :=
  {| node_id := py "tool-s"; node_name := py "lookup";
     node_description := py "Fails with details.";
     node_run := fun _ _ _ =>
       Return {| status := FAILURE;
                 output := {[ py "content" := VDict [(py "error", VStr (py "boom"))];
                              py "recoverable" := VBool true ]} |} |}.

Definition agent_with (tools : list Node) : Agent.AgentState :=
  Agent.__init__ (H := PyModel.python) echo_llm tools (py "AI Agent") None None 1 false.

Definition manager : AgentManager.ManagerState :=
  AgentManager.__init__ (H := PyModel.python) echo_llm [] (py "Manager Agent")
    None None 1 false.

(** A custom action that answers without calling the model. *)
Definition quiet : AgentManager.Callable :=
  {| AgentManager.callable_repr := py "<function quiet>";
     AgentManager.call := mret (VStr (py "done")) |}.



End Sample.

(** ** The shape of a rendered prompt

    Words free of space, lines of words, and the text that lays them
    out with single blanks and single newlines. *)

Module Layout.

(** Whether [l] holds no line boundary of [str.splitlines]. *)
Definition no_break (l : str) : bool := forallb (fun c => negb (is_linebreak c)) l.

Definition is_word (w : str) : Prop :=
  w <> [] /\ forallb (fun c => negb (isspace c)) w = true.

Definition is_line (words : list str) : Prop :=
  words <> [] /\ Forall is_word words.

Definition layout (lines : list (list str)) : str :=
  join (py "\n") (map (join (py " ")) lines).

(** A text in normal form: no blank line, no space around a line, one
    blank between two words and no other space. *)
Definition normal (t : str) : Prop :=
  exists lines, Forall is_line lines /\ t = layout lines.

End Layout.

(** The segment the pattern of [_parse_action] captures when no closing
    brace follows [Action Input:]. *)
Definition braceless_capture (rest : str) : str :=
  if startswith (py "{\n") rest then py "{\n" else [].

(** The exception [_run_llm] raises when the model reports no success. *)
Definition llm_failed : exn :=
  PyException ValueError [VStr (py "LLM execution failed")].

(** ** BaseLLM *)

Module BaseLLM.

(** The validator [set_model] of [llms/base.py]: the class prefix, when
    there is one, is put before a model name that lacks it. *)
Definition set_model (MODEL_PREFIX : option str) (value : str) : str :=
  match MODEL_PREFIX with
  | Some prefix => if negb (startswith prefix value) then prefix ++ value else value
  | None => value
  end.

End BaseLLM.

(** * Properties *)

(** ** Text *)

Section StrFacts.
Implicit Types (s p w r : str) (c : N).

Lemma startswith_app p s : startswith p (p ++ s) = true.
Proof.
  induction p as [|a p IH]; simpl; [done|].
  by rewrite N.eqb_refl, IH.
Qed.

Lemma startswith_split p s : startswith p s = true -> s = p ++ drop (length p) s.
Proof.
  revert s. induction p as [|a p IH]; intros [|b s] Hs; simpl in *; try done.
  apply andb_prop in Hs as [Hab Hs]. apply N.eqb_eq in Hab. subst b.
  f_equal. by apply IH.
Qed.

Lemma startswith_head_ne a p c s : a <> c -> startswith (a :: p) (c :: s) = false.
Proof. intros Hne. simpl. apply N.eqb_neq in Hne. by rewrite Hne. Qed.

Lemma lstrip_skip s : lstrip s = skip_while isspace s.
Proof. induction s as [|c s IH]; simpl; [done|]. by rewrite IH. Qed.

Lemma skip_while_app cls w r :
  forallb cls w = true -> skip_while cls (w ++ r) = skip_while cls r.
Proof.
  induction w as [|c w IH]; simpl; [done|].
  intros Hw. apply andb_prop in Hw as [Hc Hw]. rewrite Hc. by apply IH.
Qed.

Lemma skip_while_all cls w : forallb cls w = true -> skip_while cls w = [].
Proof.
  intros Hw. rewrite <- (app_nil_r w). by rewrite skip_while_app.
Qed.

Lemma lstrip_fixed_app s r : s <> [] -> lstrip s = s -> lstrip (s ++ r) = s ++ r.
Proof.
  destruct s as [|c s]; [done|]. intros _. simpl.
  destruct (isspace c) eqn:Hc; [|done].
  intros Hs. exfalso.
  assert (Hlen : (length (lstrip s) <= length s)%nat).
  { clear. induction s as [|a s IH]; simpl; [lia|]. destruct (isspace a); simpl; lia. }
  rewrite Hs in Hlen. simpl in Hlen. lia.
Qed.



(** Text that neither starts nor ends with a space is its own strip. *)
Lemma strip_fixed s c :
  lstrip s = s -> last s = Some c -> isspace c = false -> strip s = s.
Proof.
  intros Hl Hlast Hc. unfold strip, rstrip. rewrite Hl.
  apply last_Some in Hlast as [b ->].
  rewrite rev_app_distr. simpl. rewrite Hc. simpl.
  by rewrite rev_involutive.
Qed.

Lemma find_None_startswith p s :
  find p s = None -> forall i, startswith p (drop i s) = false.
Proof.
  induction s as [|c s IH]; simpl.
  - destruct (startswith p []) eqn:Hp; [done|]. intros _ i. by rewrite drop_nil.
  - destruct (startswith p (c :: s)) eqn:Hp; [done|].
    destruct (find p s) eqn:Hf; [done|]. intros _ [|i]; [done|]. simpl. by apply IH.
Qed.

End StrFacts.

(** ** The matcher *)

Section ReFacts.
Context {R : Type}.
Implicit Types (s u v rest : str) (k : str -> option R).

Lemma star_greedy_skip cls s k x :
  k (skip_while cls s) = Some x -> star_greedy cls s k = Some x.
Proof.
  induction s as [|c s IH]; simpl; [done|].
  destruct (cls c); [|done]. intros Hk. by rewrite (IH Hk).
Qed.

(** A lazy loop stops at the first place where what follows matches. *)
Lemma star_lazy_first cls u rest k x :
  forallb cls u = true ->
  (forall v, v <> [] -> v `suffix_of` u -> k (v ++ rest) = None) ->
  k rest = Some x ->
  star_lazy cls (u ++ rest) k = Some x.
Proof.
  intros Hcls Hfail Hk. induction u as [|c u IH]; simpl.
  - destruct rest; simpl; by rewrite Hk.
  - assert (Hc : k (c :: u ++ rest) = None) by (by apply (Hfail (c :: u))).
    rewrite Hc. simpl in Hcls. apply andb_prop in Hcls as [-> Hcls].
    apply IH; [done|]. intros v Hv Hsuf. apply Hfail; [done|].
    by apply suffix_cons_r.
Qed.

End ReFacts.

Section SearchFacts.
Implicit Types (s l : str) (r : regex).

Lemma search_none l r s : find l s = None -> search (Seq (Lit l) r) s = None.
Proof.
  induction s as [|c s IH]; simpl.
  - by destruct (startswith l []).
  - destruct (startswith l (c :: s)); [done|].
    destruct (find l s); [done|]. intros _. by apply IH.
Qed.

Lemma search_first l r s i m :
  find l s = Some i ->
  rmatch (Seq (Lit l) r) (drop i s) [] (fun _ m => Some m) = Some m ->
  search (Seq (Lit l) r) s = Some m.
Proof.
  revert i. induction s as [|c s IH]; intros i.
  - simpl. destruct (startswith l []) eqn:Hl; [|done].
    intros [= <-]. simpl. rewrite Hl. by intros ->.
  - simpl find. destruct (startswith l (c :: s)) eqn:Hl.
    + intros [= <-]. rewrite drop_0. intros Hm.
      unfold search; fold search. by rewrite Hm.
    + destruct (find l s) as [j|] eqn:Hf; [|done].
      intros [= <-]. simpl drop. intros Hm.
      unfold search; fold search. simpl rmatch. rewrite Hl.
      by apply (IH j).
Qed.
End SearchFacts.

(** ** The agent *)

Import Agent.

Section AgentFacts.
Context `{PyLib}.

Lemma take_app_diff (u rest : str) :
  take (length (u ++ rest) - length rest) (u ++ rest) = u.
Proof.
  rewrite length_app. replace (length u + length rest - length rest)%nat with (length u) by lia.
  by rewrite take_app_length.
Qed.





Lemma action_input_literal : py "\nAction Input:" = 10 :: py "Action Input:".
Proof. by vm_compute. Qed.



(** C2.  [_parse_action] raises the recoverable
    [ActionParsingException] with its guidance text when the text has no
    [Action:] marker, when the pattern finds no match, and when the
    captured input segment is refused by [json.loads]; whatever it
    raises is that exception, never a fatal one. *)
Theorem parse_action_failures (output : str) :
  (find (py "Action:") output = None -> _parse_action output = Raise parse_error)
  /\ (search action_pattern output = None -> _parse_action output = Raise parse_error)
  /\ (forall m g e,
        search action_pattern output = Some m ->
        group m 2 = Some g ->
        json_loads (unfence (strip g)) = Raise e ->
        _parse_action output = Raise parse_error)
  /\ (forall e, _parse_action output = Raise e ->
        e = parse_error /\ is_recoverable e = true).
Proof.
  split; [|split; [|split]].
  - intros Hfind. unfold _parse_action, action_pattern.
    by rewrite search_none.
  - intros Hnone. unfold _parse_action. by rewrite Hnone.
  - intros m g e Hm Hg He. unfold _parse_action. rewrite Hm.
    unfold group_strip. rewrite Hg. destruct (group m 1); simpl; [|done].
    by rewrite He.
  - intros e. unfold _parse_action, try_except.
    destruct (match search action_pattern output with Some _ => _ | None => _ end);
      [done|]. by intros [= <-].
Qed.

(** *** Rendering *)

Lemma render_blocks_empty_template block_names vars l1 block l2 prompt :
  render_blocks block_names vars (l1 ++ (block, []) :: l2) prompt
  = render_blocks block_names vars (l1 ++ l2) prompt.
Proof.
  revert prompt. induction l1 as [|[b c] l1 IH]; intros prompt; simpl.
  - by destruct block_names; [destruct (bool_decide _)|].
  - destruct (match block_names with None => true | Some names => _ end); [|done].
    destruct c; [done|]. by destruct (str_format _ _); simpl.
Qed.

(** C3 (amended).  A configured block whose template is empty leaves no
    trace in the prompt: [generate_prompt] returns what it returns
    without that block, for every choice of block names and override
    variables. *)
Theorem empty_template_leaves_no_trace (s : AgentState)
    (block_names : option (list str)) (kwargs : gmap str pyval)
    (block : str) (l1 l2 : list (str * str)) :
  fst (generate_prompt block_names kwargs
         (set_prompt_blocks (l1 ++ (block, []) :: l2) s))
  = fst (generate_prompt block_names kwargs (set_prompt_blocks (l1 ++ l2) s)).
Proof.
  unfold generate_prompt, mbind, M_bind, gets, lift_result. simpl.
  rewrite render_blocks_empty_template.
  by destruct (render_blocks _ _ _ _).
Qed.

Lemma generate_prompt_state (s : AgentState)
    (block_names : option (list str)) (kwargs : gmap str pyval) :
  snd (generate_prompt block_names kwargs s) = s.
Proof.
  unfold generate_prompt, mbind, M_bind, gets, lift_result. simpl.
  by destruct (render_blocks _ _ _ _).
Qed.

(** C4.  [generate_prompt] leaves the agent as it found it, so a second
    call with the same arguments has the same outcome as the first:
    the same text, code point for code point. *)
Theorem generate_prompt_repeatable (s : AgentState)
    (block_names : option (list str)) (kwargs : gmap str pyval) :
  snd (generate_prompt block_names kwargs s) = s
  /\ generate_prompt block_names kwargs (snd (generate_prompt block_names kwargs s))
     = generate_prompt block_names kwargs s.
Proof.
  split; [apply generate_prompt_state|]. by rewrite generate_prompt_state.
Qed.

(** *** Tools *)


Lemma tool_by_names_fold (s : AgentState) :
  tool_by_names s = fold_left register (tools s) ∅.
Proof. unfold tool_by_names. by destruct (tools s). Qed.

Lemma registry_other_names (l : list Node) (d : gmap str Node) (k : str) :
  Forall (fun t => node_name t <> k) l ->
  fold_left register l d !! k = d !! k.
Proof.
  revert d. induction l as [|t l IH]; intros d Hl; simpl; [done|].
  inversion Hl as [|? ? Ht Hl']; subst.
  rewrite IH by done. unfold register. by rewrite lookup_insert_ne.
Qed.

Lemma registry_last (l1 l2 : list Node) (tool : Node) (d : gmap str Node) :
  Forall (fun t => node_name t <> node_name tool) l2 ->
  fold_left register (l1 ++ tool :: l2) d !! node_name tool = Some tool.
Proof.
  intros Hl2. rewrite fold_left_app. simpl.
  rewrite registry_other_names by done.
  unfold register. by rewrite lookup_insert_eq.
Qed.





(** C10.  When several configured tools share a name, the registry,
    rebuilt at each lookup, maps the name to the one that comes last
    in the list, and [_get_tool] returns that tool. *)
Theorem duplicate_tool_name_last_wins (s : AgentState)
    (l1 l2 : list Node) (tool : Node) :
  tools s = l1 ++ tool :: l2 ->
  Forall (fun t => node_name t <> node_name tool) l2 ->
  tool_by_names s !! node_name tool = Some tool
  /\ _get_tool (node_name tool) s = (Return tool, s).
Proof.
  intros Htools Hl2.
  assert (Hlook : tool_by_names s !! node_name tool = Some tool).
  { rewrite tool_by_names_fold, Htools. by apply registry_last. }
  split; [done|].
  unfold _get_tool, mbind, M_bind, gets. simpl. by rewrite Hlook.
Qed.

(** *** Running a tool *)

(** X17.  When the tool reports success, [_run_tool] returns the content
    of its output and leaves the tool as the only dependency.  When it
    reports another status with a failure payload whose content has a
    hash, [_run_tool] raises [ToolExecutionException], recoverable, if
    and only if the payload's [recoverable] field is true, and the
    fatal [ValueError] otherwise; the tool is the only dependency then
    too. *)
Theorem run_tool_dispatch (s : AgentState) (tool : Node) (tool_input : pyval)
    (tool_result : RunnableResult) :
  node_run tool tool_input None (_run_depends s) = Return tool_result ->
  (forall c,
     status tool_result = SUCCESS ->
     output tool_result !! py "content" = Some c ->
     _run_tool tool tool_input s
     = (Return c, set_run_depends [dependency_of tool] s))
  /\ (forall c r,
        status tool_result <> SUCCESS ->
        failure_payload (output tool_result) c r ->
        _run_tool tool tool_input s
        = (Raise (tool_failure c r), set_run_depends [dependency_of tool] s)
        /\ (tool_failure c r
            = RecoverableAgentException ToolExecutionException [VSet [c]] true
            <-> truthy r = true)
        /\ is_recoverable (tool_failure c r) = truthy r).
Proof.
  intros Hrun. split.
  - intros c Hst Hcontent.
    unfold _run_tool, mbind, M_bind, gets, modify, lift_result, subscript.
    simpl. rewrite Hrun, Hst. simpl. by rewrite Hcontent.
  - intros c r Hst (Hcontent & Hrec & Hhash). split; [|split].
    + unfold _run_tool, mbind, M_bind, gets, modify, lift_result, subscript,
        set_display, raise, tool_failure.
      simpl. rewrite Hrun.
      destruct (status tool_result); try done; simpl;
        rewrite Hcontent, Hhash, Hrec; simpl;
        destruct (truthy r); simpl; by rewrite ?Hcontent, ?Hhash.
    + unfold tool_failure. by destruct (truthy r).
    + unfold tool_failure. by destruct (truthy r).
Qed.

(** A failure content without hash: the set display of line 246, built
    for the log before the flag is read, raises. *)
Lemma run_tool_unhashable (s : AgentState) (tool : Node) (tool_input : pyval)
    (tool_result : RunnableResult) (c : pyval) :
  node_run tool tool_input None (_run_depends s) = Return tool_result ->
  status tool_result <> SUCCESS ->
  output tool_result !! py "content" = Some c ->
  hashable c = false ->
  _run_tool tool tool_input s
  = (Raise (unhashable c), set_run_depends [dependency_of tool] s).
Proof.
  intros Hrun Hst Hc Hhash.
  unfold _run_tool, mbind, M_bind, gets, modify, lift_result, subscript,
    set_display, raise.
  simpl. rewrite Hrun.
  destruct (status tool_result); try done; simpl; by rewrite Hc, Hhash.
Qed.

(** *** Executing the agent *)

Lemma run_llm_frame (p : str) (s : AgentState) :
  _prompt_variables (snd (_run_llm p s)) = _prompt_variables s
  /\ _prompt_blocks (snd (_run_llm p s)) = _prompt_blocks s
  /\ llm_prompts (snd (_run_llm p s)) = llm_prompts s ++ [p].
Proof.
  unfold _run_llm, try_except_M, mbind, M_bind, gets, modify, lift_result,
    raise, subscript. simpl.
  destruct (node_run _ _ _ _) as [res|e]; simpl; [|done].
  destruct (output res !! py "content"); simpl; [|done].
  by destruct (is_success (status res)).
Qed.

Lemma run_agent_frame (s : AgentState) :
  _prompt_variables (snd (_run_agent s)) = _prompt_variables s
  /\ _prompt_blocks (snd (_run_agent s)) = _prompt_blocks s
  /\ (forall p,
        render_blocks None (_prompt_variables s) (_prompt_blocks s) [] = Return p ->
        llm_prompts (snd (_run_agent s)) = llm_prompts s ++ [normalize_prompt p]).
Proof.
  unfold _run_agent, generate_prompt, try_except_M, mbind, M_bind, gets,
    lift_result, mret, M_ret. simpl.
  rewrite (left_id_L ∅ (∪)).
  destruct (render_blocks _ _ _ _) as [p|e]; simpl.
  - destruct (run_llm_frame (normalize_prompt p) s) as (Hv & Hb & Hl).
    destruct (_run_llm (normalize_prompt p) s) as [[r|e] s']; simpl in *.
    + split; [done|]. split; [done|]. by intros ? [= <-].
    + split; [done|]. split; [done|]. by intros ? [= <-].
  - done.
Qed.

Lemma execute_eq (input_data : gmap str pyval) (s : AgentState) :
  execute input_data s
  = match _run_agent
            (set_prompt_variables (input_data ∪ _prompt_variables s)
               (set_run_depends [] (set_intermediate_steps ∅ s))) with
    | (Return r, s2) =>
        (Return {| content := r; intermediate_steps := _intermediate_steps s2 |},
         if streaming_enabled s2
         then log_streamed
                {| content := r; intermediate_steps := _intermediate_steps s2 |} s2
         else s2)
    | (Raise e, s2) => (Raise e, s2)
    end.
Proof.
  unfold execute, reset_run_state, mbind, M_bind, modify, gets, mret, M_ret.
  simpl. destruct (_run_agent _) as [[r|e] s2]; [|done].
  by destruct (streaming_enabled s2).
Qed.

Lemma execute_frame (input_data : gmap str pyval) (s : AgentState) :
  _prompt_variables (snd (execute input_data s)) = input_data ∪ _prompt_variables s
  /\ _prompt_blocks (snd (execute input_data s)) = _prompt_blocks s
  /\ (forall p,
        render_blocks None (input_data ∪ _prompt_variables s) (_prompt_blocks s) []
          = Return p ->
        llm_prompts (snd (execute input_data s)) = llm_prompts s ++ [normalize_prompt p]).
Proof.
  rewrite execute_eq.
  match goal with |- context [_run_agent ?s1] =>
    destruct (run_agent_frame s1) as (Hv & Hb & Hl);
    destruct (_run_agent s1) as [[r|e] s2] end; simpl in *.
  - by destruct (streaming_enabled s2).
  - done.
Qed.

Lemma execute_each_keeps (later : list (gmap str pyval)) (s : AgentState)
    (k : str) (v : pyval) :
  _prompt_variables s !! k = Some v ->
  Forall (fun j => j !! k = None) later ->
  _prompt_variables (execute_each later s) !! k = Some v.
Proof.
  revert s. induction later as [|j later IH]; intros s Hk Hl; simpl; [done|].
  inversion Hl as [|? ? Hj Hl']; subst. apply IH; [|done].
  destruct (execute_frame j s) as (-> & _).
  rewrite lookup_union_r; done.
Qed.

(** C9.  [reset_run_state] empties the intermediate steps and the
    dependency chain and nothing else.  After [execute], whatever its
    outcome, the stored prompt variables are the old ones updated with
    [input_data], and the blocks are unchanged.  A value brought by
    [input_data] is still stored after any number of later calls that
    do not bring the key again, and the prompt of a call is rendered
    from the stored variables updated with the input of that call. *)
Theorem execute_merges_input_permanently (s : AgentState)
    (input_data : gmap str pyval) :
  snd (reset_run_state s) = set_run_depends [] (set_intermediate_steps ∅ s)
  /\ _prompt_variables (snd (reset_run_state s)) = _prompt_variables s
  /\ _prompt_variables (snd (execute input_data s)) = input_data ∪ _prompt_variables s
  /\ _prompt_blocks (snd (execute input_data s)) = _prompt_blocks s
  /\ (forall k v later,
        input_data !! k = Some v ->
        Forall (fun j => j !! k = None) later ->
        _prompt_variables (execute_each later (snd (execute input_data s))) !! k
          = Some v)
  /\ (forall p,
        render_blocks None (input_data ∪ _prompt_variables s) (_prompt_blocks s) []
          = Return p ->
        llm_prompts (snd (execute input_data s)) = llm_prompts s ++ [normalize_prompt p]).
Proof.
  destruct (execute_frame input_data s) as (Hv & Hb & Hl).
  split; [done|]. split; [done|]. split; [done|]. split; [done|]. split; [|done].
  intros k v later Hk Hlater. apply execute_each_keeps; [|done].
  rewrite Hv. by apply lookup_union_Some_l.
Qed.
End AgentFacts.

(** ** The manager *)

Section ManagerFacts.
Context `{PyLib}.
Import AgentManager.



End ManagerFacts.

(** ** Worked cases *)

Section Cases.
#[local] Existing Instance PyModel.python.
Import Sample.


(** The action of the spec's first scenario, and an input that is a
    JSON array: the pattern captures nothing of it. *)
Example parse_plain_action :
  _parse_action (py "Action: search\nAction Input: {\x22q\x22: \x22x\x22}")
  = Return (py "search", VDict [(py "q", VStr (py "x"))])
  /\ _parse_action (py "Action: search\nAction Input: [1, 2]") = Raise parse_error.
Proof. split; by vm_compute. Qed.

(** A marker at the start, a marker inside a line, and no marker. *)
Example final_answer_cases :
  _extract_final_answer (py "Answer: result-x") = Return (py "result-x")
  /\ _extract_final_answer (py "The Final Answer:  42 \n") = Return (py "42")
  /\ _extract_final_answer (py "Thought: not yet") = Return [].
Proof. repeat split; by vm_compute. Qed.


(** C2, a text without marker and a text with a malformed input. *)
Lemma parse_action_failures_witness :
  _parse_action (py "I cannot help with that.") = Raise parse_error
  /\ _parse_action (py "Action: search\nAction Input: {oops}") = Raise parse_error.
Proof.
  split.
  - apply (proj1 (parse_action_failures _)). by vm_compute.
  - eapply (proj1 (proj2 (proj2 (parse_action_failures _))));
      [vm_compute; reflexivity..].
Defined.

(** C3, counterexample: with no tool the [tools] block is empty after
    substitution, and its header is still in the prompt. *)
Lemma tools_header_without_tools :
  str_format (py "{tool_description}") (_prompt_variables (agent_with [])) = Return []
  /\ fst (generate_prompt (Some [py "tools"]) ∅ (agent_with [])) = Return (py "TOOLS:").
Proof. split; by vm_compute. Qed.

(** C5.  A tool that reports a failure marked recoverable, with a
    dictionary as its content: [_run_tool] raises the [TypeError] of
    hashing the content, which is fatal, and not the recoverable
    [ToolExecutionException]; the tool is the only dependency. *)
Lemma run_tool_structured_failure :
  node_run structured_failure (VDict []) None []
  = Return {| status := FAILURE;
              output := {[ py "content" := VDict [(py "error", VStr (py "boom"))];
                           py "recoverable" := VBool true ]} |}
  /\ _run_tool structured_failure (VDict []) (agent_with [structured_failure])
     = (Raise (PyException TypeError [VStr (py "unhashable type: 'dict'")]),
        set_run_depends [dependency_of structured_failure]
          (agent_with [structured_failure]))
  /\ is_recoverable (PyException TypeError [VStr (py "unhashable type: 'dict'")]) = false.
Proof.
  split; [done|]. split; [|done].
  by rewrite (run_tool_unhashable (agent_with [structured_failure]) structured_failure
                (VDict []) _ (VDict [(py "error", VStr (py "boom"))]) eq_refl).
Qed.

(** X17, a tool failing with either flag and a tool that succeeds. *)
Lemma run_tool_dispatch_witness :
  _run_tool (failing_tool true) (VDict []) (agent_with [failing_tool true])
  = (Raise (RecoverableAgentException ToolExecutionException
              [VSet [VStr (py "boom")]] true),
     set_run_depends [dependency_of (failing_tool true)]
       (agent_with [failing_tool true]))
  /\ _run_tool (failing_tool false) (VDict []) (agent_with [failing_tool false])
     = (Raise (PyException ValueError [VSet [VStr (py "boom")]]),
        set_run_depends [dependency_of (failing_tool false)]
          (agent_with [failing_tool false]))
  /\ _run_tool (search_tool (py "t1") (py "result-x")) (VDict [(py "q", VStr (py "x"))])
       (agent_with [search_tool (py "t1") (py "result-x")])
     = (Return (VStr (py "result-x")),
        set_run_depends [dependency_of (search_tool (py "t1") (py "result-x"))]
          (agent_with [search_tool (py "t1") (py "result-x")])).
Proof.
  split; [|split].
  - apply (proj2 (run_tool_dispatch (agent_with [failing_tool true])
                    (failing_tool true) (VDict []) _ eq_refl)
             (VStr (py "boom")) (VBool true)); [done|].
    repeat split; by vm_compute.
  - apply (proj2 (run_tool_dispatch (agent_with [failing_tool false])
                    (failing_tool false) (VDict []) _ eq_refl)
             (VStr (py "boom")) (VBool false)); [done|].
    repeat split; by vm_compute.
  - apply (proj1 (run_tool_dispatch
                    (agent_with [search_tool (py "t1") (py "result-x")])
                    (search_tool (py "t1") (py "result-x"))
                    (VDict [(py "q", VStr (py "x"))]) _ eq_refl)); by vm_compute.
Defined.


(** C10, two tools named [search]. *)
Lemma duplicate_tool_name_last_wins_witness :
  _get_tool (py "search")
    (agent_with [search_tool (py "t1") (py "first"); search_tool (py "t2") (py "second")])
  = (Return (search_tool (py "t2") (py "second")),
     agent_with [search_tool (py "t1") (py "first"); search_tool (py "t2") (py "second")]).
Proof.
  apply (proj2 (duplicate_tool_name_last_wins
    (agent_with [search_tool (py "t1") (py "first"); search_tool (py "t2") (py "second")])
    [search_tool (py "t1") (py "first")] [] (search_tool (py "t2") (py "second"))
    eq_refl (List.Forall_nil _))).
Defined.

(** C9, the [input] of a first call, two calls later. *)
Lemma execute_merges_input_permanently_witness :
  _prompt_variables
    (execute_each [∅; {[ py "context" := VStr (py "later") ]}]
       (snd (execute {[ py "input" := VStr (py "hello") ]} (agent_with []))))
    !! py "input" = Some (VStr (py "hello")).
Proof.
  apply (proj1 (proj2 (proj2 (proj2 (proj2
           (execute_merges_input_permanently (agent_with [])
              {[ py "input" := VStr (py "hello") ]})))))).
  - by vm_compute.
  - repeat constructor; by vm_compute.
Defined.

(** On a fresh agent the default [request] block has no [input] to
    show; once one call has brought it, a later call without it renders
    the old value. *)
Example stale_input_is_rendered :
  fst (execute ∅ (agent_with [])) = Raise (PyException KeyError [VStr (py "input")])
  /\ fst (execute ∅ (snd (execute {[ py "input" := VStr (py "hello") ]} (agent_with []))))
     = Return
         {| content := VStr (py "INTRODUCTION:\nYou are a helpful AI assistant designed to help with various tasks.\nDATE:\n04 November 2026\nTOOLS:\nOUTPUT_FORMAT:\nProvide your answer in a clear and concise manner.\nREQUEST:\nUser request: hello");
            intermediate_steps := ∅ |}.
Proof. split; by vm_compute. Qed.


End Cases.

(** * Further properties *)

Import Layout.

(** ** Stripped texts *)

Section TextShape.
Implicit Types (s t l w : str) (c : N).

Lemma lstrip_split s :
  exists a, s = a ++ lstrip s /\ forallb isspace a = true.
Proof.
  induction s as [|c s (a & Hs & Ha)]; simpl.
  - by exists [].
  - destruct (isspace c) eqn:Hc.
    + exists (c :: a). simpl. rewrite Hc, Ha. split; [by f_equal|done].
    + by exists [].
Qed.

Lemma lstrip_head s c r : lstrip s = c :: r -> isspace c = false.
Proof.
  induction s as [|x s IH]; simpl; [done|].
  destruct (isspace x) eqn:Hx; [done|]. by intros [= <- _].
Qed.

(** A text is spaces, its strip, and spaces; the strip is empty or has
    no space at either end. *)
Lemma strip_split s :
  exists a b,
    s = a ++ strip s ++ b
    /\ forallb isspace a = true /\ forallb isspace b = true
    /\ (strip s = []
        \/ exists c r d, strip s = c :: r /\ isspace c = false
                         /\ last (strip s) = Some d /\ isspace d = false).
Proof.
  destruct (lstrip_split s) as (a & Hs & Ha).
  destruct (lstrip_split (rev (lstrip s))) as (b & Hr & Hb).
  exists a, (rev b). unfold strip, rstrip.
  assert (Ht : lstrip s = rev (lstrip (rev (lstrip s))) ++ rev b).
  { rewrite <- rev_app_distr, <- Hr. by rewrite rev_involutive. }
  split; [by rewrite <- Ht|]. split; [done|]. split.
  { rewrite forallb_forall in *. intros x Hx. apply Hb. by apply in_rev. }
  destruct (lstrip (rev (lstrip s))) as [|d u] eqn:Hu; [by left|].
  right. pose proof (lstrip_head _ _ _ Hu) as Hd.
  simpl rev in *.
  destruct (rev u ++ [d]) as [|c r] eqn:Hcr; [by destruct (rev u)|].
  exists c, r, d. split; [done|]. split.
  - apply (lstrip_head s c (r ++ rev b)). by rewrite Ht.
  - rewrite <- Hcr. by rewrite last_snoc.
Qed.

Lemma lstrip_nospace c r : isspace c = false -> lstrip (c :: r) = c :: r.
Proof. intros Hc. simpl. by rewrite Hc. Qed.

Lemma strip_idem s : strip (strip s) = strip s.
Proof.
  destruct (strip_split s) as (a & b & _ & _ & _ & [->|(c & r & d & Hs & Hc & Hl & Hd)]).
  - done.
  - apply (strip_fixed _ d); [|done|done]. rewrite Hs. by apply lstrip_nospace.
Qed.
End TextShape.

(** ** Splitting and joining *)

Section Splitting.
Implicit Types (s t l w cur : str) (c : N).

Lemma py_newline : py "\n" = [10].
Proof. reflexivity. Qed.

Lemma py_blank : py " " = [32].
Proof. reflexivity. Qed.

(** *** [split] on one code point and [join] *)

Lemma split_on_from_line sep cur l :
  lacks sep l = true -> split_on_from sep cur l = [rev cur ++ l].
Proof.
  revert cur. induction l as [|c l IH]; intros cur Hl; simpl.
  - by rewrite app_nil_r.
  - simpl in Hl. apply andb_prop in Hl as [Hc Hl].
    apply negb_true_iff in Hc. rewrite Hc, IH by done.
    simpl. by rewrite <- app_assoc.
Qed.

Lemma split_on_from_app sep cur l rest :
  lacks sep l = true ->
  split_on_from sep cur (l ++ sep :: rest) = (rev cur ++ l) :: split_on_from sep [] rest.
Proof.
  revert cur. induction l as [|c l IH]; intros cur Hl; simpl.
  - by rewrite N.eqb_refl, app_nil_r.
  - simpl in Hl. apply andb_prop in Hl as [Hc Hl].
    apply negb_true_iff in Hc. rewrite Hc, IH by done.
    simpl. by rewrite <- app_assoc.
Qed.

Lemma split_on_join sep (lines : list str) :
  lines <> [] -> Forall (fun l => lacks sep l = true) lines ->
  split_on sep (join [sep] lines) = lines.
Proof.
  unfold split_on. induction lines as [|l lines IH]; [done|].
  intros _ Hall. inversion Hall as [|? ? Hl Hrest]; subst.
  destruct lines as [|l2 lines].
  - simpl. by rewrite split_on_from_line.
  - change (join [sep] (l :: l2 :: lines)) with (l ++ sep :: join [sep] (l2 :: lines)).
    rewrite split_on_from_app by done. simpl rev. simpl app at 1.
    f_equal. by apply IH.
Qed.

(** *** [splitlines] *)

Lemma splitlines_from_no_break cur s :
  no_break cur = true ->
  Forall (fun l => no_break l = true) (splitlines_from cur s).
Proof.
  revert cur. induction s as [s IH] using (induction_ltof1 _ (@length N)).
  unfold ltof in IH. intros cur Hcur.
  assert (Hrev : no_break (rev cur) = true).
  { unfold no_break in *. rewrite forallb_forall in *. intros x Hx.
    apply Hcur. by apply in_rev. }
  destruct s as [|c s]; simpl.
  - destruct cur; [constructor|]. by repeat constructor.
  - destruct (c =? 13).
    + destruct s as [|c2 s].
      * constructor; [done|]. apply (IH []); [simpl; lia|done].
      * destruct (c2 =? 10); (constructor; [done|]); apply IH; simpl; try lia; done.
    + destruct (is_linebreak c) eqn:Hc.
      * constructor; [done|]. apply IH; [simpl; lia|done].
      * apply IH; [simpl; lia|]. unfold no_break. simpl. by rewrite Hc.
Qed.

Lemma splitlines_no_break s : Forall (fun l => no_break l = true) (splitlines s).
Proof. by apply splitlines_from_no_break. Qed.

Lemma no_break_lacks_newline l : no_break l = true -> lacks 10 l = true.
Proof.
  unfold no_break, lacks. rewrite !forallb_forall. intros Hl x Hx.
  specialize (Hl x Hx). destruct (x =? 10) eqn:Hx10; [|done].
  apply N.eqb_eq in Hx10. by subst x.
Qed.
End Splitting.

(** ** Words of a line *)

Section Words.
Implicit Types (s t l w cur : str) (c : N).

Lemma is_word_rev_snoc cur c :
  forallb (fun c => negb (isspace c)) cur = true -> isspace c = false ->
  forallb (fun c => negb (isspace c)) (c :: cur) = true.
Proof. intros Hcur Hc. simpl. by rewrite Hc. Qed.

Lemma forallb_rev (f : N -> bool) l : forallb f (rev l) = forallb f l.
Proof.
  apply eq_true_iff_eq. rewrite !forallb_forall.
  split; intros Hl x Hx; apply Hl; [by rewrite <- in_rev|by rewrite in_rev].
Qed.

Lemma split_ws_from_words cur s :
  forallb (fun c => negb (isspace c)) cur = true ->
  Forall is_word (split_ws_from cur s).
Proof.
  revert cur. induction s as [|c s IH]; intros cur Hcur; simpl.
  - destruct cur as [|x cur]; [constructor|].
    constructor; [|constructor].
    split; [simpl; by destruct (rev cur)|by rewrite forallb_rev].
  - destruct (isspace c) eqn:Hc.
    + destruct cur as [|x cur]; [by apply IH|].
      constructor; [|by apply IH].
      split; [simpl; by destruct (rev cur)|by rewrite forallb_rev].
    + apply IH. by apply is_word_rev_snoc.
Qed.

Lemma split_ws_words s : Forall is_word (split_ws s).
Proof. by apply split_ws_from_words. Qed.

Lemma split_ws_from_nonempty cur s :
  cur <> [] \/ existsb (fun c => negb (isspace c)) s = true ->
  split_ws_from cur s <> [].
Proof.
  revert cur. induction s as [|c s IH]; intros cur Hor; simpl.
  - destruct Hor as [Hcur|Hs]; [|done]. by destruct cur.
  - destruct (isspace c) eqn:Hc.
    + destruct cur as [|x cur]; [|done].
      apply IH. right. destruct Hor as [|Hs]; [done|]. simpl in Hs. by rewrite Hc in Hs.
    + apply IH. by left.
Qed.

Lemma split_ws_from_word cur w :
  forallb (fun c => negb (isspace c)) w = true -> rev cur ++ w <> [] ->
  split_ws_from cur w = [rev cur ++ w].
Proof.
  revert cur. induction w as [|c w IH]; intros cur Hw Hne; simpl.
  - rewrite app_nil_r in *. destruct cur as [|x cur]; [done|]. done.
  - simpl in Hw. apply andb_prop in Hw as [Hc Hw]. apply negb_true_iff in Hc.
    rewrite Hc, IH; simpl; rewrite <- ?app_assoc; try done;
      by destruct (rev cur).
Qed.

Lemma split_ws_from_word_app cur w rest :
  forallb (fun c => negb (isspace c)) w = true -> rev cur ++ w <> [] ->
  split_ws_from cur (w ++ 32 :: rest) = (rev cur ++ w) :: split_ws_from [] rest.
Proof.
  revert cur. induction w as [|c w IH]; intros cur Hw Hne; simpl.
  - rewrite app_nil_r in *. destruct cur as [|x cur]; [done|]. done.
  - simpl in Hw. apply andb_prop in Hw as [Hc Hw]. apply negb_true_iff in Hc.
    rewrite Hc, IH; simpl; rewrite <- ?app_assoc; try done;
      by destruct (rev cur).
Qed.

Lemma split_ws_join (words : list str) :
  Forall is_word words -> split_ws (join [32] words) = words.
Proof.
  unfold split_ws. induction words as [|w words IH]; [done|].
  intros Hall. inversion Hall as [|? ? [Hne Hw] Hrest]; subst.
  destruct words as [|w2 words].
  - simpl. by rewrite split_ws_from_word.
  - change (join [32] (w :: w2 :: words)) with (w ++ 32 :: join [32] (w2 :: words)).
    rewrite split_ws_from_word_app by done. simpl. f_equal. by apply IH.
Qed.
End Words.

(** ** The clean-up of [generate_prompt] gives a normal text *)

Section Normalize.
Implicit Types (s t l w p : str) (c : N).

Lemma lacks_app c a b : lacks c (a ++ b) = lacks c a && lacks c b.
Proof. apply forallb_app. Qed.

Lemma stripped_lines (lines : list str) :
  Forall (fun l => no_break l = true) lines ->
  Forall (fun l => lacks 10 l = true
                   /\ existsb (fun c => negb (isspace c)) l = true)
    (map strip (filter (fun line => strip line <> []) lines)).
Proof.
  induction lines as [|x lines IH]; intros Hall; [constructor|].
  inversion Hall as [|? ? Hx Hrest]; subst.
  destruct (decide (strip x <> [])) as [Hne|He].
  - rewrite filter_cons_True by done. simpl. constructor; [|by apply IH].
    destruct (strip_split x) as (a & b & Hsplit & _ & _ & [?|(c & r & d & Hs & Hc & _)]);
      [done|]. split.
    + apply no_break_lacks_newline in Hx. rewrite Hsplit, !lacks_app in Hx.
      apply andb_prop in Hx as [_ Hx]. by apply andb_prop in Hx as [Hx _].
    + rewrite Hs. simpl. by rewrite Hc.
  - rewrite filter_cons_False by done. by apply IH.
Qed.

Lemma layout_eq (lines : list (list str)) :
  layout lines = join [10] (map (join [32]) lines).
Proof. done. Qed.

Lemma normalize_prompt_normal p : normal (normalize_prompt p).
Proof.
  unfold normalize_prompt. rewrite py_newline, py_blank.
  pose proof (stripped_lines _ (splitlines_no_break (dedent p))) as HL.
  destruct (map strip (filter _ (splitlines (dedent p)))) as [|l L] eqn:HeqL.
  - by exists [].
  - rewrite split_on_join; [| done |].
    + exists (map split_ws (l :: L)). split.
      * clear HeqL. induction HL as [|x xs [_ Hx] _ IH]; [constructor|].
        simpl. constructor; [|done]. split; [|apply split_ws_words].
        apply split_ws_from_nonempty. by right.
      * by rewrite layout_eq, map_map.
    + eapply Forall_impl; [exact HL|]. by intros x [Hx _].
Qed.
End Normalize.

(** ** Normal texts *)

Section NormalTexts.
Implicit Types (s t l w p : str) (c : N) (words : list str).

Lemma linebreak_is_space c : is_linebreak c = true -> isspace c = true.
Proof.
  unfold is_linebreak, isspace.
  rewrite !orb_true_iff, !andb_true_iff, !N.leb_le, !N.eqb_eq. lia.
Qed.

Lemma blank_is_space c : is_blank c = true -> isspace c = true.
Proof.
  unfold is_blank, isspace.
  rewrite !orb_true_iff, !andb_true_iff, !N.leb_le, !N.eqb_eq. lia.
Qed.

Lemma word_no_break w :
  forallb (fun c => negb (isspace c)) w = true -> no_break w = true.
Proof.
  unfold no_break. rewrite !forallb_forall. intros Hw x Hx.
  specialize (Hw x Hx). destruct (is_linebreak x) eqn:Hb; [|done].
  apply linebreak_is_space in Hb. by rewrite Hb in Hw.
Qed.

Lemma word_last w :
  is_word w -> exists d, last w = Some d /\ isspace d = false.
Proof.
  intros [Hne Hw]. destruct (last w) as [d|] eqn:Hl; [|by apply last_None in Hl].
  exists d. split; [done|]. apply last_Some in Hl as [u ->].
  rewrite forallb_app in Hw. apply andb_prop in Hw as [_ Hw]. simpl in Hw.
  by destruct (isspace d).
Qed.

Lemma join_last w words :
  is_word w -> Forall is_word words ->
  exists d, last (join [32] (w :: words)) = Some d /\ isspace d = false.
Proof.
  intros Hw Hall. revert w Hw. induction Hall as [|w2 words Hw2 Hall IH]; intros w Hw.
  - by apply word_last.
  - destruct (IH w2 Hw2) as (d & Hd & Hsp). exists d. split; [|done].
    change (join [32] (w :: w2 :: words)) with (w ++ 32 :: join [32] (w2 :: words)).
    rewrite last_app, last_cons. by rewrite Hd.
Qed.

Lemma join_no_break words :
  Forall is_word words -> no_break (join [32] words) = true.
Proof.
  induction 1 as [|w words [_ Hw] Hall IH]; [done|].
  destruct words as [|w2 words]; [by apply word_no_break|].
  change (join [32] (w :: w2 :: words)) with (w ++ 32 :: join [32] (w2 :: words)).
  pose proof (word_no_break w Hw) as Hnb.
  unfold no_break in *. rewrite forallb_app, Hnb.
  change (forallb ?f (32 :: ?j)) with (negb (is_linebreak 32) && forallb f j).
  by rewrite IH.
Qed.

(** The facts on a line laid out from its words. *)
Lemma line_facts words :
  is_line words ->
  (exists c r, join [32] words = c :: r /\ isspace c = false)
  /\ (exists d, last (join [32] words) = Some d /\ isspace d = false)
  /\ no_break (join [32] words) = true
  /\ split_ws (join [32] words) = words.
Proof.
  intros [Hne Hall]. split; [|split; [|split]].
  - destruct words as [|w words]; [done|].
    inversion Hall as [|? ? [Hw Hns] _]; subst.
    destruct w as [|c w]; [done|]. simpl in Hns.
    apply andb_prop in Hns as [Hc _]. apply negb_true_iff in Hc.
    destruct words; simpl; by eexists _, _.
  - destruct words as [|w words]; [done|].
    inversion Hall; subst. by apply join_last.
  - by apply join_no_break.
  - by apply split_ws_join.
Qed.

(** *** [splitlines] of lines joined by newlines *)

Lemma no_break_cons c l :
  no_break (c :: l) = true ->
  (c =? 13) = false /\ is_linebreak c = false /\ no_break l = true.
Proof.
  unfold no_break. simpl. intros Hcl. apply andb_prop in Hcl as [Hc Hl].
  apply negb_true_iff in Hc. split; [|done].
  destruct (c =? 13) eqn:H13; [|done]. apply N.eqb_eq in H13. by subst c.
Qed.

Lemma splitlines_from_line cur l :
  no_break l = true -> rev cur ++ l <> [] ->
  splitlines_from cur l = [rev cur ++ l].
Proof.
  revert cur. induction l as [|c l IH]; intros cur Hl Hne; simpl.
  - rewrite app_nil_r in *. by destruct cur.
  - apply no_break_cons in Hl as (H13 & Hb & Hl). rewrite H13, Hb.
    rewrite IH; simpl; rewrite <- ?app_assoc; try done; by destruct (rev cur).
Qed.

Lemma splitlines_from_app cur l rest :
  no_break l = true ->
  splitlines_from cur (l ++ 10 :: rest) = (rev cur ++ l) :: splitlines_from [] rest.
Proof.
  revert cur. induction l as [|c l IH]; intros cur Hl; simpl.
  - by rewrite app_nil_r.
  - apply no_break_cons in Hl as (H13 & Hb & Hl). rewrite H13, Hb.
    rewrite IH by done. simpl. by rewrite <- app_assoc.
Qed.

Lemma splitlines_join (lines : list str) :
  Forall (fun l => no_break l = true /\ l <> []) lines ->
  splitlines (join [10] lines) = lines.
Proof.
  unfold splitlines. induction 1 as [|l lines [Hl Hne] Hall IH]; [done|].
  destruct lines as [|l2 lines].
  - simpl. by rewrite splitlines_from_line.
  - change (join [10] (l :: l2 :: lines)) with (l ++ 10 :: join [10] (l2 :: lines)).
    rewrite splitlines_from_app by done. simpl. f_equal. by apply IH.
Qed.

(** *** [dedent] of lines that start with no blank *)

Lemma margin_of_flush (lines : list str) :
  Forall (fun l => exists c r, l = c :: r /\ isspace c = false) lines ->
  margin_of lines = None \/ margin_of lines = Some [].
Proof.
  unfold margin_of. intros Hall.
  assert (Hgen : forall m, (m = None \/ m = Some []) ->
    let r := fold_left
      (fun margin l =>
         match l with
         | [] => margin
         | _ => match margin with
                | None => Some (indent_of l)
                | Some m => Some (common_prefix m (indent_of l))
                end
         end) lines m in r = None \/ r = Some []).
  { induction Hall as [|l lines (c & r & -> & Hc) Hall IH]; intros m Hm; [done|].
    simpl. apply IH.
    assert (Hb : is_blank c = false).
    { destruct (is_blank c) eqn:Hb; [|done]. apply blank_is_space in Hb. congruence. }
    rewrite Hb. destruct Hm as [->| ->]; by right. }
  apply Hgen. by left.
Qed.

Lemma blank_line_flush l c r :
  l = c :: r -> isspace c = false -> blank_line l = l.
Proof.
  intros -> Hc. unfold blank_line. simpl.
  destruct (is_blank c) eqn:Hb; [|done]. apply blank_is_space in Hb. congruence.
Qed.

Lemma dedent_flush (lines : list str) :
  lines <> [] ->
  Forall (fun l => exists c r, l = c :: r /\ isspace c = false) lines ->
  Forall (fun l => lacks 10 l = true) lines ->
  dedent (join [10] lines) = join [10] lines.
Proof.
  intros Hne Hflush Hnl. unfold dedent. rewrite split_on_join by done.
  assert (Hmap : map blank_line lines = lines).
  { clear Hne Hnl. induction Hflush as [|l lines (c & r & Hl & Hc) _ IH]; [done|].
    simpl. by rewrite (blank_line_flush l c r), IH. }
  rewrite Hmap. by destruct (margin_of_flush lines Hflush) as [-> | ->].
Qed.
End NormalTexts.

(** ** The clean-up leaves a normal text as it is *)

Section NormalizeFixed.
Implicit Types (s t l w p : str) (c : N).

Lemma map_id_on {A} (f : A -> A) (l : list A) :
  Forall (fun x => f x = x) l -> map f l = l.
Proof. induction 1 as [|x l Hx _ IH]; [done|]. simpl. by rewrite Hx, IH. Qed.

Lemma filter_all {A} (P : A -> Prop) `{forall x, Decision (P x)} (l : list A) :
  Forall P l -> filter P l = l.
Proof.
  induction 1 as [|x l Hx _ IH]; [done|]. by rewrite filter_cons_True, IH.
Qed.

Lemma normalize_prompt_fixed t : normal t -> normalize_prompt t = t.
Proof.
  intros (lines & Hlines & ->). rewrite layout_eq.
  destruct lines as [|words lines]; [done|].
  set (L := map (join [32]) (words :: lines)).
  assert (HL : Forall (fun l =>
    (exists c r, l = c :: r /\ isspace c = false)
    /\ (exists d, last l = Some d /\ isspace d = false)
    /\ no_break l = true
    /\ join [32] (split_ws l) = l) L).
  { subst L. induction Hlines as [|ws wss Hws _ IH]; [constructor|].
    simpl. constructor; [|apply IH].
    destruct (line_facts ws Hws) as (H1 & H2 & H3 & H4).
    by rewrite H4. }
  assert (Hne : L <> []) by done.
  clearbody L.
  assert (Hflush : Forall (fun l => exists c r, l = c :: r /\ isspace c = false) L).
  { eapply Forall_impl; [exact HL|]. by intros l (? & _). }
  assert (Hnl : Forall (fun l => lacks 10 l = true) L).
  { eapply Forall_impl; [exact HL|]. intros l (_ & _ & Hb & _).
    by apply no_break_lacks_newline. }
  assert (Hsl : Forall (fun l => no_break l = true /\ l <> []) L).
  { eapply Forall_impl; [exact HL|]. intros l ((c & r & -> & _) & _ & Hb & _). done. }
  assert (Hstrip : Forall (fun l => strip l = l) L).
  { eapply Forall_impl; [exact HL|].
    intros l ((c & r & -> & Hc) & (d & Hd & Hsp) & _).
    apply (strip_fixed _ d); [by apply lstrip_nospace|done|done]. }
  unfold normalize_prompt. rewrite py_newline, py_blank.
  rewrite dedent_flush, splitlines_join by done.
  rewrite filter_all.
  2:{ eapply Forall_impl; [exact HL|].
      intros l ((c & r & Hl & Hc) & (d & Hd & Hsp) & _).
      rewrite (strip_fixed l d); [by rewrite Hl| |done|done].
      rewrite Hl. by apply lstrip_nospace. }
  rewrite (map_id_on strip) by done.
  rewrite split_on_join by done.
  f_equal. apply map_id_on.
  eapply Forall_impl; [exact HL|]. by intros l (_ & _ & _ & ?).
Qed.
End NormalizeFixed.

(** ** Prompts, parsed texts and variables *)

Section MoreAgentFacts.
Context `{PyLib}.

(** X1.  Every prompt [generate_prompt] returns is laid out as lines of
    words: no empty line and no line of spaces, no space at either end
    of a line, one blank between two words of a line and one newline
    between two lines. *)
Theorem generate_prompt_normal (s : AgentState) (block_names : option (list str))
    (kwargs : gmap str pyval) (p : str) :
  fst (generate_prompt block_names kwargs s) = Return p -> normal p.
Proof.
  unfold generate_prompt, mbind, M_bind, gets, lift_result, mret, M_ret. simpl.
  destruct (render_blocks _ _ _ _) as [q|e]; simpl; [|done].
  intros [= <-]. apply normalize_prompt_normal.
Qed.

(** X2.  A prompt [generate_prompt] returns is a fixed point of the
    clean-up that ends [generate_prompt] (dedent, strip the lines, drop
    the empty ones, join the words with one blank): cleaning it again
    changes nothing. *)
Theorem rendered_prompt_is_fixed (s : AgentState) (block_names : option (list str))
    (kwargs : gmap str pyval) (p : str) :
  fst (generate_prompt block_names kwargs s) = Return p ->
  normalize_prompt p = p.
Proof.
  unfold generate_prompt, mbind, M_bind, gets, lift_result, mret, M_ret. simpl.
  destruct (render_blocks _ _ _ _) as [q|e]; simpl; [|done].
  intros [= <-]. apply normalize_prompt_fixed, normalize_prompt_normal.
Qed.

(** X3.  The action name [_parse_action] returns and the answer
    [_extract_final_answer] returns carry no space at either end:
    stripping them again changes nothing. *)
Theorem parse_results_are_stripped (output : str) :
  (forall action action_input,
     _parse_action output = Return (action, action_input) -> strip action = action)
  /\ (forall answer,
        _extract_final_answer output = Return answer -> strip answer = answer).
Proof.
  split.
  - intros action action_input. unfold _parse_action.
    destruct (search action_pattern output) as [m|]; [|done].
    unfold group_strip.
    destruct (group m 1) as [g1|]; [|done].
    destruct (group m 2) as [g2|]; [|done]. simpl.
    destruct (json_loads (unfence (strip g2))) as [v|e]; [|done]. simpl.
    intros [= <- <-]. apply strip_idem.
  - intros answer. unfold _extract_final_answer, group_strip.
    destruct (search answer_pattern output) as [m|]; [|by intros [= <-]].
    destruct (group m 1) as [g1|]; [|done]. simpl.
    intros [= <-]. apply strip_idem.
Qed.

(** *** Variables and blocks *)

(** X4.  After [set_prompt_variable(name, value)] a prompt is rendered
    as if [name = value] had been passed as a keyword after the given
    ones; a keyword of the same name given to [generate_prompt] wins,
    and the stored value then has no effect on the outcome. *)
Theorem stored_variable_yields_to_override (s : AgentState)
    (block_names : option (list str)) (kwargs : gmap str pyval)
    (variable_name : str) (value : pyval) :
  fst (generate_prompt block_names kwargs (snd (set_prompt_variable variable_name value s)))
  = fst (generate_prompt block_names (kwargs ∪ {[variable_name := value]}) s)
  /\ (is_Some (kwargs !! variable_name) ->
      fst (generate_prompt block_names kwargs
             (snd (set_prompt_variable variable_name value s)))
      = fst (generate_prompt block_names kwargs s)).
Proof.
  assert (Heq : kwargs ∪ <[variable_name:=value]> (_prompt_variables s)
                = (kwargs ∪ {[variable_name := value]}) ∪ _prompt_variables s).
  { by rewrite insert_union_singleton_l, (assoc_L (∪)). }
  split.
  - unfold generate_prompt, set_prompt_variable, mbind, M_bind, gets, modify,
      lift_result, mret, M_ret. simpl. rewrite Heq.
    by destruct (render_blocks _ _ _ _).
  - intros [v Hv].
    unfold generate_prompt, set_prompt_variable, mbind, M_bind, gets, modify,
      lift_result, mret, M_ret. simpl. rewrite Heq.
    replace (kwargs ∪ {[variable_name := value]}) with kwargs;
      [by destruct (render_blocks _ _ _ _)|].
    apply map_eq. intros k. rewrite lookup_union.
    destruct (decide (k = variable_name)) as [->|Hne].
    + by rewrite Hv, lookup_singleton_eq.
    + rewrite lookup_singleton_ne by done. by destruct (kwargs !! k).
Qed.
End MoreAgentFacts.

(** ** Dictionaries in insertion order *)

Section Dictionaries.
Context {V : Type}.
Implicit Types (d : list (str * V)) (k : str) (v : V).

Lemma dict_get_set_eq k v d : dict_get k (dict_set k v d) = Some v.
Proof.
  induction d as [|[k' v'] d IH]; simpl.
  - by rewrite bool_decide_true.
  - destruct (bool_decide (k' = k)) eqn:Hk; simpl.
    + by rewrite bool_decide_true.
    + by rewrite Hk.
Qed.

Lemma dict_get_set_ne k k' v d : k' <> k -> dict_get k' (dict_set k v d) = dict_get k' d.
Proof.
  intros Hne. induction d as [|[k2 v2] d IH]; simpl.
  - by rewrite bool_decide_false.
  - destruct (bool_decide (k2 = k)) eqn:Hk; simpl.
    + apply bool_decide_eq_true in Hk. subst k2.
      by rewrite !(bool_decide_false (k = k')).
    + by rewrite IH.
Qed.

Lemma dict_get_None_keys k d : dict_get k d = None <-> k ∉ map fst d.
Proof.
  induction d as [|[k' v'] d IH]; simpl.
  - split; [intros _; apply not_elem_of_nil|done].
  - rewrite not_elem_of_cons. destruct (bool_decide (k' = k)) eqn:Hk.
    + apply bool_decide_eq_true in Hk. split; [done|]. by intros [? _].
    + apply bool_decide_eq_false in Hk. rewrite IH.
      split; [intros ?; split; [congruence|done]|by intros [_ ?]].
Qed.

Lemma dict_set_absent k v d : dict_get k d = None -> dict_set k v d = d ++ [(k, v)].
Proof.
  induction d as [|[k' v'] d IH]; simpl; [done|].
  destruct (bool_decide (k' = k)); [done|]. intros Hd. by rewrite IH.
Qed.

Lemma dict_set_present k v d :
  is_Some (dict_get k d) -> map fst (dict_set k v d) = map fst d.
Proof.
  induction d as [|[k' v'] d IH]; simpl; [by intros [? ?]|].
  destruct (bool_decide (k' = k)) eqn:Hk; simpl.
  - apply bool_decide_eq_true in Hk. by subst.
  - intros Hd. by rewrite IH.
Qed.

Lemma dict_set_split k v old d1 d2 :
  k ∉ map fst d1 ->
  dict_set k v (d1 ++ (k, old) :: d2) = d1 ++ (k, v) :: d2.
Proof.
  induction d1 as [|[k' v'] d1 IH]; simpl.
  - intros _. by rewrite bool_decide_true.
  - rewrite not_elem_of_cons. intros [Hne Hd1].
    rewrite bool_decide_false by done. by rewrite IH.
Qed.

Lemma dict_set_NoDup k v d : NoDup (map fst d) -> NoDup (map fst (dict_set k v d)).
Proof.
  intros Hd. destruct (dict_get k d) as [x|] eqn:Hk.
  - rewrite dict_set_present; [done|by eexists].
  - rewrite dict_set_absent, map_app by done. simpl.
    apply NoDup_app. split; [done|]. split; [|apply NoDup_singleton].
    intros y Hy Hin. apply list_elem_of_singleton in Hin. subst y.
    by apply dict_get_None_keys in Hk.
Qed.
End Dictionaries.

(** ** Prompt blocks *)

Section Blocks.
Context `{PyLib}.

(** X5.  After [add_block(name, content)] the block [name] holds
    [content] and every other block what it held.  A block that was
    there keeps its place in the rendering order, a new one is put
    last, and the prompt variables are untouched. *)
Theorem add_block_spec (s : AgentState) (block_name content : str) :
  dict_get block_name (_prompt_blocks (snd (add_block block_name content s)))
  = Some content
  /\ (forall other, other <> block_name ->
        dict_get other (_prompt_blocks (snd (add_block block_name content s)))
        = dict_get other (_prompt_blocks s))
  /\ (is_Some (dict_get block_name (_prompt_blocks s)) ->
        map fst (_prompt_blocks (snd (add_block block_name content s)))
        = map fst (_prompt_blocks s))
  /\ (dict_get block_name (_prompt_blocks s) = None ->
        _prompt_blocks (snd (add_block block_name content s))
        = _prompt_blocks s ++ [(block_name, content)])
  /\ _prompt_variables (snd (add_block block_name content s)) = _prompt_variables s.
Proof.
  unfold add_block, modify. simpl.
  split; [apply dict_get_set_eq|]. split; [intros; by apply dict_get_set_ne|].
  split; [apply dict_set_present|]. split; [apply dict_set_absent|done].
Qed.

(** X6.  Setting a configured block to the empty text with [add_block]
    removes it from every prompt: [generate_prompt] then returns what
    it returns for the blocks without that one. *)
Theorem emptied_block_disappears (s : AgentState) (block_names : option (list str))
    (kwargs : gmap str pyval) (block_name old : str) (l1 l2 : list (str * str)) :
  _prompt_blocks s = l1 ++ (block_name, old) :: l2 ->
  block_name ∉ map fst l1 ->
  fst (generate_prompt block_names kwargs (snd (add_block block_name [] s)))
  = fst (generate_prompt block_names kwargs (set_prompt_blocks (l1 ++ l2) s)).
Proof.
  intros Hblocks Hfresh.
  unfold generate_prompt, add_block, mbind, M_bind, gets, modify, lift_result.
  simpl. rewrite Hblocks, dict_set_split by done.
  rewrite render_blocks_empty_template.
  by destruct (render_blocks _ _ _ _).
Qed.

Lemma render_blocks_filter (names : list str) vars (blocks : list (str * str)) prompt :
  render_blocks (Some names) vars blocks prompt
  = render_blocks None vars (filter (fun b => b.1 ∈ names) blocks) prompt.
Proof.
  revert prompt. induction blocks as [|[b c] blocks IH]; intros prompt; [done|].
  simpl. destruct (decide (b ∈ names)) as [Hin|Hout].
  - rewrite filter_cons_True by done. rewrite bool_decide_true by done. simpl.
    destruct c; [done|]. destruct (str_format _ _); simpl; [|done]. apply IH.
  - rewrite filter_cons_False by done. rewrite bool_decide_false by done. apply IH.
Qed.

Lemma generate_prompt_no_block (s : AgentState) (names : list str)
    (kwargs : gmap str pyval) :
  Forall (fun b => b.1 ∉ names) (_prompt_blocks s) ->
  generate_prompt (Some names) kwargs s = (Return [], s).
Proof.
  intros Hnone.
  unfold generate_prompt, mbind, M_bind, gets, lift_result. simpl.
  rewrite render_blocks_filter.
  replace (filter (fun b => b.1 ∈ names) (_prompt_blocks s)) with (@nil (str * str)); [done|].
  symmetry. induction Hnone as [|b bs Hb _ IH]; [done|].
  by rewrite filter_cons_False.
Qed.

(** X7.  [generate_prompt] with [block_names] renders the blocks whose
    name is listed, in the order of the configured blocks and not of
    the list; when no configured block is listed it returns the empty
    prompt and formats nothing. *)
Theorem block_names_select (s : AgentState) (names : list str)
    (kwargs : gmap str pyval) :
  fst (generate_prompt (Some names) kwargs s)
  = fst (generate_prompt None kwargs
           (set_prompt_blocks (filter (fun b => b.1 ∈ names) (_prompt_blocks s)) s))
  /\ (Forall (fun b => b.1 ∉ names) (_prompt_blocks s) ->
        generate_prompt (Some names) kwargs s = (Return [], s)).
Proof.
  split.
  - unfold generate_prompt, mbind, M_bind, gets, lift_result. simpl.
    rewrite render_blocks_filter. by destruct (render_blocks _ _ _ _).
  - apply generate_prompt_no_block.
Qed.
End Blocks.

(** ** The model name of an LLM node *)

Section Model.
Import BaseLLM.

(** X8.  [set_model] is idempotent.  With a class prefix the model name
    it returns starts with the prefix: a name that has it is returned
    as it is, another one gets the prefix in front.  Without a class
    prefix the name is returned as it is. *)
Theorem set_model_prefixed (MODEL_PREFIX : option str) (value : str) :
  set_model MODEL_PREFIX (set_model MODEL_PREFIX value) = set_model MODEL_PREFIX value
  /\ (forall prefix, MODEL_PREFIX = Some prefix ->
        startswith prefix (set_model MODEL_PREFIX value) = true
        /\ (startswith prefix value = true -> set_model MODEL_PREFIX value = value)
        /\ (startswith prefix value = false ->
              set_model MODEL_PREFIX value = prefix ++ value))
  /\ (MODEL_PREFIX = None -> set_model MODEL_PREFIX value = value).
Proof.
  split; [|split].
  - destruct MODEL_PREFIX as [prefix|]; simpl; [|done].
    destruct (startswith prefix value) eqn:Hv; simpl.
    + by rewrite Hv.
    + by rewrite startswith_app.
  - intros prefix ->. simpl.
    destruct (startswith prefix value) eqn:Hv; simpl.
    + done.
    + by rewrite startswith_app.
  - by intros ->.
Qed.
End Model.

(** ** Fences around the action input *)

Section Fences.
Implicit Types (s a b old new : str) (c : N).

Lemma replace_from_skip old new a b :
  replace_from old new (length a) (a ++ b) = replace_from old new 0 b.
Proof. induction a as [|x a IH]; simpl; [by destruct b|done]. Qed.

Lemma replace_prefix c old new b :
  replace (c :: old) new ((c :: old) ++ b) = new ++ replace (c :: old) new b.
Proof.
  unfold replace. change ((c :: old) ++ b) with (c :: (old ++ b)).
  unfold replace_from at 1; fold replace_from.
  change (c :: (old ++ b)) with ((c :: old) ++ b). rewrite startswith_app.
  replace (length (c :: old) - 1)%nat with (length old) by (simpl; lia).
  by rewrite replace_from_skip.
Qed.

Lemma replace_lacks_app c old new a b :
  lacks c a = true ->
  replace (c :: old) new (a ++ b) = a ++ replace (c :: old) new b.
Proof.
  unfold replace. induction a as [|x a IH]; [done|].
  intros Ha. simpl in Ha. apply andb_prop in Ha as [Hx Ha].
  apply negb_true_iff in Hx. rewrite N.eqb_sym in Hx.
  change ((x :: a) ++ b) with (x :: (a ++ b)).
  unfold replace_from at 1; fold replace_from.
  rewrite startswith_head_ne; [|by apply N.eqb_neq].
  simpl. by rewrite IH.
Qed.

Lemma contains_prefix old b : contains old (old ++ b) = true.
Proof.
  unfold contains. apply bool_decide_eq_true.
  destruct old as [|c old]; [by destruct b; eexists|].
  change ((c :: old) ++ b) with (c :: (old ++ b)).
  unfold find. change (c :: (old ++ b)) with ((c :: old) ++ b).
  rewrite startswith_app. by eexists.
Qed.

(** X9.  For a text [a] with no backquote, the fence removal of
    [_parse_action] turns [a] between an opening json fence and a
    closing fence, and [a] after an opening json fence alone, into [a]
    stripped. *)
Theorem unfence_fenced a :
  lacks 96 a = true ->
  unfence (py "```json" ++ a ++ py "```") = strip a
  /\ unfence (py "```json" ++ a) = strip a.
Proof.
  intros Ha.
  assert (Hj : py "```json" = 96 :: py "``json") by reflexivity.
  assert (Hf : py "```" = 96 :: py "``") by reflexivity.
  split; unfold unfence; rewrite contains_prefix.
  - rewrite Hj at 1 2. rewrite replace_prefix. simpl app at 1.
    rewrite replace_lacks_app by done.
    replace (replace (96 :: py "``json") [] (py "```")) with (py "```") by reflexivity.
    rewrite Hf at 1. rewrite replace_lacks_app by done.
    replace (replace (96 :: py "``") [] (py "```")) with (@nil N) by reflexivity.
    by rewrite app_nil_r.
  - rewrite Hj at 1 2. rewrite replace_prefix. simpl app at 1.
    rewrite <- (app_nil_r a) at 1. rewrite replace_lacks_app by done.
    change (replace (96 :: py "``json") [] []) with (@nil N). rewrite app_nil_r.
    rewrite Hf at 1. rewrite <- (app_nil_r a) at 1. rewrite replace_lacks_app by done.
    change (replace (96 :: py "``") [] []) with (@nil N). by rewrite app_nil_r.
Qed.
End Fences.

(** ** An action input without closing brace *)

Section NoBrace.
Context `{PyLib}.

Lemma star_lazy_now {R} cls (s : str) (k : str -> option R) x :
  k s = Some x -> star_lazy cls s k = Some x.
Proof. intros Hk. destruct s; simpl; by rewrite Hk. Qed.

Lemma input_part_braceless (m0 : groups) (rest : str) :
  lacks 125 rest = true ->
  exists m,
    rmatch (Seq (Group 2 (Seq (Opt (Group 3 (Lit (py "{\n")))) (Star false any)))
                (Seq (Star true (fun c => negb (c =? 125))) Eos))
      rest m0 (fun _ m => Some m) = Some m
    /\ group m 2 = Some (braceless_capture rest) /\ group m 1 = group m0 1.
Proof.
  intros Hrest.
  assert (Hend : forall u (K : str -> option groups) x,
    lacks 125 u = true -> K [] = Some x ->
    star_greedy (fun c => negb (c =? 125)) u K = Some x).
  { intros u K x Hu HK. apply star_greedy_skip. by rewrite skip_while_all. }
  unfold braceless_capture. cbn [rmatch].
  destruct (startswith (py "{\n") rest) eqn:Hopen.
  - pose proof (startswith_split _ _ Hopen) as Hsplit.
    remember (drop (length (py "{\n")) rest) as u eqn:Hequ.
    assert (Hu : lacks 125 u = true).
    { rewrite Hsplit in Hrest. unfold lacks in *. rewrite forallb_app in Hrest.
      by apply andb_prop in Hrest as [_ ?]. }
    eexists. split; [|split].
    + erewrite star_lazy_now; [reflexivity|]. apply Hend; [done|]. reflexivity.
    + simpl. f_equal. rewrite Hsplit. apply take_app_diff.
    + done.
  - eexists. split; [|split].
    + erewrite star_lazy_now; [reflexivity|]. apply Hend; [done|]. reflexivity.
    + simpl. by rewrite Nat.sub_diag, take_0.
    + done.
Qed.

Lemma action_pattern_braceless (ws1 name ws2 rest : str) :
  forallb isspace ws1 = true ->
  name <> [] -> lstrip name = name -> lacks 10 name = true ->
  forallb isspace ws2 = true ->
  lstrip rest = rest ->
  lacks 125 rest = true ->
  exists m,
    rmatch action_pattern
      (py "Action:" ++ ws1 ++ name ++ py "\nAction Input:" ++ ws2 ++ rest)
      [] (fun _ m => Some m) = Some m
    /\ group m 1 = Some name /\ group m 2 = Some (braceless_capture rest).
Proof.
  intros Hws1 Hname Hsolid Hline Hws2 Hrest Hbrace.
  destruct (input_part_braceless [(1%nat, name)] rest Hbrace) as (m & Hm & Hg2 & Hg1).
  exists m. split; [|by split].
  unfold action_pattern.
  change (rmatch (Seq ?a ?b) ?s ?g ?k)
    with (rmatch a s g (fun s' m' => rmatch b s' m' k)).
  cbn [rmatch]. rewrite startswith_app, drop_app_length.
  apply star_greedy_skip.
  rewrite skip_while_app by done.
  rewrite <- lstrip_skip, lstrip_fixed_app by done.
  apply star_lazy_first; [by apply forallb_forall| |].
  - intros v Hv [b Hb].
    destruct v as [|c v]; [done|]. simpl app. cbv beta.
    rewrite action_input_literal.
    rewrite startswith_head_ne; [done|].
    intros <-. unfold lacks in Hline. rewrite Hb, forallb_app in Hline.
    apply andb_prop in Hline as [_ Hline]. simpl in Hline. done.
  - rewrite startswith_app, drop_app_length.
    apply star_greedy_skip.
    rewrite skip_while_app by done.
    rewrite <- lstrip_skip, Hrest.
    rewrite take_app_diff. exact Hm.
Qed.

(** X10.  When no closing brace follows [Action Input:], the pattern of
    [_parse_action] captures nothing of the input but an opening brace
    and newline at its start: [json.loads] is given one opening brace,
    or the empty text, and [_parse_action] returns or raises as
    [json.loads] does on that. *)
Theorem parse_action_without_closing_brace (pre ws1 name ws2 rest : str) :
  find (py "Action:")
    (pre ++ py "Action:" ++ ws1 ++ name ++ py "\nAction Input:" ++ ws2 ++ rest)
    = Some (length pre) ->
  forallb isspace ws1 = true ->
  name <> [] -> lstrip name = name -> lacks 10 name = true ->
  forallb isspace ws2 = true ->
  lstrip rest = rest ->
  lacks 125 rest = true ->
  _parse_action
    (pre ++ py "Action:" ++ ws1 ++ name ++ py "\nAction Input:" ++ ws2 ++ rest)
  = match json_loads (if startswith (py "{\n") rest then py "{" else []) with
    | Return v => Return (strip name, v)
    | Raise _ => Raise parse_error
    end.
Proof.
  intros Hfind Hws1 Hname Hsolid Hline Hws2 Hrest Hbrace.
  destruct (action_pattern_braceless ws1 name ws2 rest) as (m & Hm & Hg1 & Hg2);
    try done.
  assert (Hsearch : search action_pattern
    (pre ++ py "Action:" ++ ws1 ++ name ++ py "\nAction Input:" ++ ws2 ++ rest)
    = Some m).
  { apply (search_first (py "Action:") _ _ (length pre) m Hfind).
    by rewrite drop_app_length. }
  unfold braceless_capture in Hg2.
  destruct (startswith (py "{\n") rest);
    unfold _parse_action; rewrite Hsearch;
    unfold group_strip; rewrite Hg1, Hg2; cbn [mbind result_bind].
  - replace (unfence (strip (py "{\n"))) with (py "{") by (by vm_compute).
    by destruct (json_loads _).
  - replace (unfence (strip [])) with (@nil N) by (by vm_compute).
    by destruct (json_loads _).
Qed.
End NoBrace.

(** ** Running the model *)

Section Running.
Context `{PyLib}.

Lemma run_llm_raise (prompt : str) (s : AgentState) (e : exn) :
  node_run (llm s) (VDict []) (Some prompt) (_run_depends s) = Raise e ->
  _run_llm prompt s = (Raise e, log_llm_prompt prompt s).
Proof.
  intros He.
  unfold _run_llm, try_except_M, mbind, M_bind, gets, modify, lift_result, raise.
  simpl. by rewrite He.
Qed.

Lemma run_llm_return (prompt : str) (s : AgentState) (res : RunnableResult) :
  node_run (llm s) (VDict []) (Some prompt) (_run_depends s) = Return res ->
  _run_llm prompt s
  = (match output res !! py "content" with
     | None => Raise (PyException KeyError [VStr (py "content")])
     | Some c => if is_success (status res) then Return c else Raise llm_failed
     end,
     set_run_depends [dependency_of (llm s)] (log_llm_prompt prompt s)).
Proof.
  intros Hres.
  unfold _run_llm, try_except_M, mbind, M_bind, gets, modify, lift_result,
    raise, subscript. simpl. rewrite Hres. simpl.
  destruct (output res !! py "content"); simpl; [|done].
  by destruct (is_success (status res)).
Qed.

(** X11.  [_run_llm] calls the model once with the prompt and the
    current dependencies.  An exception of the model is raised again
    and the dependencies stay.  When the model returns, the model
    becomes the only dependency; a missing [content] raises [KeyError]
    whatever the status, a status other than success raises
    [ValueError], and otherwise the content is returned.  No exception
    [_run_llm] raises itself is recoverable. *)
Theorem run_llm_outcomes (prompt : str) (s : AgentState) :
  (forall e,
     node_run (llm s) (VDict []) (Some prompt) (_run_depends s) = Raise e ->
     _run_llm prompt s = (Raise e, log_llm_prompt prompt s))
  /\ (forall res,
        node_run (llm s) (VDict []) (Some prompt) (_run_depends s) = Return res ->
        _run_llm prompt s
        = (match output res !! py "content" with
           | None => Raise (PyException KeyError [VStr (py "content")])
           | Some c => if is_success (status res) then Return c else Raise llm_failed
           end,
           set_run_depends [dependency_of (llm s)] (log_llm_prompt prompt s))
        /\ forall e, fst (_run_llm prompt s) = Raise e -> is_recoverable e = false).
Proof.
  split; [apply run_llm_raise|].
  intros res Hres. split; [by apply run_llm_return|].
  rewrite (run_llm_return _ _ _ Hres). simpl. intros e.
  destruct (output res !! py "content"); [|by intros [= <-]].
  destruct (is_success (status res)); [done|by intros [= <-]].
Qed.

(** X12.  When rendering the prompt fails, [Agent.execute] raises that
    error without calling the model, the run state reset and the input
    merged.  When [execute] returns, the model was called once, with
    the rendered prompt and no dependency, it reported success, the
    content returned is the [content] of its output, the intermediate
    steps are empty and the model is the only dependency. *)
Theorem execute_outcomes (input_data : gmap str pyval) (s : AgentState) :
  (forall e,
     render_blocks None (input_data ∪ _prompt_variables s) (_prompt_blocks s) []
       = Raise e ->
     execute input_data s
     = (Raise e,
        set_prompt_variables (input_data ∪ _prompt_variables s)
          (set_run_depends [] (set_intermediate_steps ∅ s))))
  /\ (forall r s',
        execute input_data s = (Return r, s') ->
        intermediate_steps r = ∅
        /\ _intermediate_steps s' = ∅
        /\ _run_depends s' = [dependency_of (llm s)]
        /\ exists p res,
             render_blocks None (input_data ∪ _prompt_variables s) (_prompt_blocks s) []
               = Return p
             /\ llm_prompts s' = llm_prompts s ++ [normalize_prompt p]
             /\ node_run (llm s) (VDict []) (Some (normalize_prompt p)) [] = Return res
             /\ status res = SUCCESS
             /\ output res !! py "content" = Some (content r)).
Proof.
  split.
  - intros e He. rewrite execute_eq.
    unfold _run_agent, generate_prompt, try_except_M, mbind, M_bind, gets,
      lift_result. simpl.
    rewrite (left_id_L ∅ (∪)). by rewrite He.
  - intros r s'. rewrite execute_eq.
    unfold _run_agent, generate_prompt, try_except_M, mbind at 1 2 3, M_bind, gets,
      lift_result, mret, M_ret. simpl.
    rewrite (left_id_L ∅ (∪)).
    destruct (render_blocks _ _ _ _) as [p|e]; simpl; [|done].
    destruct (node_run (llm s) (VDict []) (Some (normalize_prompt p)) [])
      as [res|e] eqn:Hrun.
    + rewrite (run_llm_return _ _ res) by done.
      destruct (output res !! py "content") as [c|] eqn:Hc; [|done].
      destruct (status res) eqn:Hst; simpl; try done.
      destruct (streaming_enabled s); intros [= <- <-]; simpl;
        (repeat split; try done); by exists p, res.
    + by rewrite (run_llm_raise _ _ e).
Qed.
End Running.

(** ** Actions of the manager *)

Section ManagerMore.
Context `{PyLib}.
Import AgentManager.

(** The agent a registered action runs on: the run state reset and the
    input merged. *)
Lemma manager_execute_registered (m : ManagerState) (input_data : gmap str pyval)
    (k : str) (f : Callable) :
  input_data !! py "action" = Some (VStr k) ->
  k <> [] ->
  dict_get k (_actions m) = Some f ->
  AgentManager.execute input_data m
  = match call f (set_prompt_variables (input_data ∪ _prompt_variables (agent m))
                    (set_run_depends [] (set_intermediate_steps ∅ (agent m)))) with
    | (Return r, a') =>
        (Return {| content := VDict [(py "action", VStr k); (py "result", r)];
                   intermediate_steps := _intermediate_steps a' |},
         set_agent
           (if streaming_enabled a'
            then log_streamed
                   {| content := VDict [(py "action", VStr k); (py "result", r)];
                      intermediate_steps := _intermediate_steps a' |} a'
            else a') m)
    | (Raise e, a') => (Raise e, set_agent a' m)
    end.
Proof.
  intros Haction Hk Hf.
  unfold AgentManager.execute, lift, reset_run_state, mbind, M_bind, modify,
    gets, mret, M_ret, lift_result, raise. simpl.
  rewrite Haction. simpl.
  rewrite (bool_decide_false (k = [])) by done. simpl.
  unfold dict_contains, dict_subscript. simpl. rewrite Hf.
  rewrite bool_decide_true by (by eexists). simpl.
  destruct (call f _) as [[r|e] a']; simpl; [|done].
  by destruct (streaming_enabled a').
Qed.

(** X13.  An action added with [add_action] under a name that is not
    empty can be run by name: [execute] returns the content
    [{action: name, result: r}] with [r] what the callable returns.
    Adding it changes no other registered action and not the agent. *)
Theorem add_action_then_execute (m : ManagerState) (name : str) (action : Callable)
    (input_data : gmap str pyval) (r : pyval) (a' : AgentState) :
  name <> [] ->
  input_data !! py "action" = Some (VStr name) ->
  call action (set_prompt_variables (input_data ∪ _prompt_variables (agent m))
                 (set_run_depends [] (set_intermediate_steps ∅ (agent m))))
    = (Return r, a') ->
  fst (AgentManager.execute input_data (snd (add_action name action m)))
  = Return {| content := VDict [(py "action", VStr name); (py "result", r)];
              intermediate_steps := _intermediate_steps a' |}
  /\ (forall other, other <> name ->
        dict_get other (_actions (snd (add_action name action m)))
        = dict_get other (_actions m))
  /\ agent (snd (add_action name action m)) = agent m.
Proof.
  intros Hname Haction Hcall. split; [|split].
  - rewrite (manager_execute_registered _ _ name action Haction Hname).
    + unfold add_action, modify. simpl. by rewrite Hcall.
    + unfold add_action, modify. simpl. apply dict_get_set_eq.
  - intros other Hne. unfold add_action, modify. simpl. by apply dict_get_set_ne.
  - done.
Qed.

(** X14.  Whatever [AgentManager.execute] raises is the invalid-action
    exception, or the [TypeError] of hashing an action that has no hash
    (a list, a dictionary or a set that is not empty), whose text names
    the type of the action, or the exception raised by the registered
    callable that was chosen. *)
Theorem manager_execute_raises (m m' : ManagerState) (input_data : gmap str pyval)
    (e : exn) :
  AgentManager.execute input_data m = (Raise e, m') ->
  e = invalid_action (default VNone (input_data !! py "action")) (_actions m)
  \/ (hashable (default VNone (input_data !! py "action")) = false
      /\ e = unhashable (default VNone (input_data !! py "action")))
  \/ exists k f,
       input_data !! py "action" = Some (VStr k)
       /\ dict_get k (_actions m) = Some f
       /\ fst (call f (set_prompt_variables (input_data ∪ _prompt_variables (agent m))
                         (set_run_depends [] (set_intermediate_steps ∅ (agent m)))))
          = Raise e.
Proof.
  destruct (input_data !! py "action") as [action|] eqn:Haction.
  2:{ unfold AgentManager.execute, lift, reset_run_state, mbind, M_bind, modify,
        gets, mret, M_ret, lift_result, raise. simpl. rewrite Haction. simpl.
      intros [= <- _]. by left. }
  destruct (truthy action) eqn:Htruthy.
  2:{ unfold AgentManager.execute, lift, reset_run_state, mbind, M_bind, modify,
        gets, mret, M_ret, lift_result, raise. simpl. rewrite Haction. simpl.
      rewrite Htruthy. simpl. intros [= <- _]. by left. }
  destruct (hashable action) eqn:Hhash.
  2:{ unfold AgentManager.execute, lift, reset_run_state, mbind, M_bind, modify,
        gets, mret, M_ret, lift_result, raise, dict_contains. simpl.
      rewrite Haction. simpl. rewrite Htruthy, Hhash. simpl.
      intros [= <- _]. right. by left. }
  destruct action as [| | | |k| | |]; try done.
  1-3: unfold AgentManager.execute, lift, reset_run_state, mbind, M_bind, modify,
        gets, mret, M_ret, lift_result, raise, dict_contains; simpl;
      rewrite Haction; simpl; simpl in Htruthy; rewrite ?Htruthy; simpl;
      intros [= <- _]; by left.
  destruct (dict_get k (_actions m)) as [f|] eqn:Hf.
  - assert (Hk : k <> []).
    { by intros ->. }
    rewrite (manager_execute_registered m input_data k f Haction Hk Hf).
    destruct (call f _) as [[r|e0] a'] eqn:Hcall; [done|].
    intros [= <- _]. right. right. exists k, f. by rewrite Hcall.
  - unfold AgentManager.execute, lift, reset_run_state, mbind, M_bind, modify,
      gets, mret, M_ret, lift_result, raise, dict_contains. simpl.
    rewrite Haction. simpl. simpl in Htruthy. rewrite Htruthy. simpl. rewrite Hf.
    rewrite bool_decide_false by (by intros [? ?]). simpl.
    intros [= <- _]. by left.
Qed.

(** X15.  A manager as constructed registers [plan], [assign] and
    [final], in that order, and none of the default blocks bears one
    of these names: each default action calls the model with the
    empty prompt. *)
Theorem default_actions_send_empty_prompt (llm : Node) (tools : list Node)
    (name : str) (role goal : option str) (max_loops : Z) (streaming_enabled : bool) :
  map fst (_actions (AgentManager.__init__ llm tools name role goal max_loops
                       streaming_enabled))
  = [py "plan"; py "assign"; py "final"]
  /\ Forall
       (fun kv =>
          call (snd kv)
            (agent (AgentManager.__init__ llm tools name role goal max_loops
                      streaming_enabled))
          = _run_llm []
              (agent (AgentManager.__init__ llm tools name role goal max_loops
                        streaming_enabled)))
       (_actions (AgentManager.__init__ llm tools name role goal max_loops
                    streaming_enabled)).
Proof.
  split; [done|].
  assert (Hrun : forall block,
    block ∈ [py "plan"; py "assign"; py "final"] ->
    run_named block (Agent.__init__ llm tools name role goal max_loops streaming_enabled)
    = _run_llm [] (Agent.__init__ llm tools name role goal max_loops streaming_enabled)).
  { intros block Hblock. unfold run_named. unfold mbind at 1, M_bind.
    rewrite generate_prompt_no_block; [done|].
    unfold Agent.__init__, _init_prompt_blocks, mbind, M_bind, gets, modify. simpl.
    repeat apply Forall_cons_2; try apply Forall_nil_2; simpl;
      intros Hin; apply list_elem_of_singleton in Hin; subst block;
      revert Hblock; apply (bool_decide_unpack _); by vm_compute. }
  unfold AgentManager.__init__, _init_actions, modify. simpl.
  repeat apply Forall_cons_2; try apply Forall_nil_2; simpl; apply Hrun;
    apply (bool_decide_unpack _); by vm_compute.
Qed.
End ManagerMore.

(** ** Tool listings *)

Section Tools.
Context `{PyLib}.

Lemma no_break_app a b : no_break (a ++ b) = no_break a && no_break b.
Proof. unfold no_break. apply forallb_app. Qed.

(** X16.  The tool listings can be split back.  When no tool name
    holds a comma, splitting [tool_names] at the commas gives the names
    of the tools in order; when no name and no stripped description
    holds a line break, the lines of [tool_description] are the tools
    in order, each as [name: description].  With no tool both listings
    are the empty text. *)
Theorem tool_listings_split_back (s : AgentState) :
  (tools s <> [] ->
   Forall (fun t => lacks 44 (node_name t) = true) (tools s) ->
   split_on 44 (tool_names s) = map node_name (tools s))
  /\ (Forall (fun t => no_break (node_name t) = true
                       /\ no_break (strip (node_description t)) = true) (tools s) ->
      splitlines (tool_description s)
      = map (fun t => node_name t ++ py ": " ++ strip (node_description t)) (tools s))
  /\ (tools s = [] -> tool_names s = [] /\ tool_description s = []).
Proof.
  split; [|split].
  - intros Hne Hall. unfold tool_names.
    destruct (tools s) as [|t ts] eqn:Hts; [done|].
    change (py ",") with [44]. apply split_on_join; [done|].
    by apply Forall_map.
  - intros Hall. unfold tool_description.
    destruct (tools s) as [|t ts] eqn:Hts; [done|].
    change (py "\n") with [10]. apply splitlines_join.
    apply Forall_map. eapply Forall_impl; [exact Hall|].
    intros u [Hn Hd]. cbn beta. split.
    + by rewrite !no_break_app, Hn, Hd.
    + by destruct (node_name u).
  - intros Hts. unfold tool_names, tool_description. by rewrite Hts.
Qed.
End Tools.

(** ** Further cases *)

Section MoreCases.
#[local] Existing Instance PyModel.python.
Import Sample.

(** X1, the tools and the request of an agent with one tool. *)
Lemma generate_prompt_normal_witness :
  normal (py "TOOLS:\nsearch: Looks things up.\nREQUEST:\nUser request: hello there").
Proof.
  apply (generate_prompt_normal
           (agent_with [search_tool (py "t1") (py "a")])
           (Some [py "tools"; py "request"])
           {[ py "input" := VStr (py "hello   there") ]}).
  by vm_compute.
Defined.

(** X2, the same prompt. *)
Lemma rendered_prompt_is_fixed_witness :
  normalize_prompt (py "TOOLS:\nsearch: Looks things up.\nREQUEST:\nUser request: hello there")
  = py "TOOLS:\nsearch: Looks things up.\nREQUEST:\nUser request: hello there".
Proof.
  apply (rendered_prompt_is_fixed
           (agent_with [search_tool (py "t1") (py "a")])
           (Some [py "tools"; py "request"])
           {[ py "input" := VStr (py "hello   there") ]}).
  by vm_compute.
Defined.

(** X3, a name and an answer written with spaces around them. *)
Lemma parse_results_are_stripped_witness :
  strip (py "search") = py "search" /\ strip (py "42") = py "42".
Proof.
  split.
  - apply (proj1 (parse_results_are_stripped
                    (py "Action:  search \nAction Input: {\x22q\x22: 1}"))
             (py "search") (VDict [(py "q", VInt 1)])).
    by vm_compute.
  - apply (proj2 (parse_results_are_stripped (py "Final Answer:  42 \n")) (py "42")).
    by vm_compute.
Defined.

(** X4, a stored [input] and a keyword [input]. *)
Lemma stored_variable_yields_to_override_witness :
  fst (generate_prompt (Some [py "request"]) {[ py "input" := VStr (py "now") ]}
         (snd (set_prompt_variable (py "input") (VStr (py "stored")) (agent_with []))))
  = fst (generate_prompt (Some [py "request"]) {[ py "input" := VStr (py "now") ]}
           (agent_with [])).
Proof.
  apply (proj2 (stored_variable_yields_to_override (agent_with [])
                  (Some [py "request"]) {[ py "input" := VStr (py "now") ]}
                  (py "input") (VStr (py "stored")))).
  exists (VStr (py "now")). by vm_compute.
Defined.

(** X5, a default block replaced and a new block added. *)
Lemma add_block_spec_witness :
  map fst (_prompt_blocks (snd (add_block (py "goal") (py "Win.") (agent_with []))))
  = map fst (_prompt_blocks (agent_with []))
  /\ _prompt_blocks (snd (add_block (py "plan") (py "Plan: {input}") (agent_with [])))
     = _prompt_blocks (agent_with []) ++ [(py "plan", py "Plan: {input}")].
Proof.
  split.
  - apply (proj1 (proj2 (proj2 (add_block_spec (agent_with []) (py "goal") (py "Win."))))).
    exists []. by vm_compute.
  - apply (proj1 (proj2 (proj2 (proj2
             (add_block_spec (agent_with []) (py "plan") (py "Plan: {input}")))))).
    by vm_compute.
Defined.

(** X6, the default block [output_format] emptied. *)
Lemma emptied_block_disappears_witness :
  fst (generate_prompt None {[ py "input" := VStr (py "hi") ]}
         (snd (add_block (py "output_format") [] (agent_with []))))
  = fst (generate_prompt None {[ py "input" := VStr (py "hi") ]}
           (set_prompt_blocks
              (take 6 (_prompt_blocks (agent_with []))
               ++ drop 7 (_prompt_blocks (agent_with [])))
              (agent_with []))).
Proof.
  apply (emptied_block_disappears (agent_with []) None
           {[ py "input" := VStr (py "hi") ]} (py "output_format")
           (py "Provide your answer in a clear and concise manner.")).
  - by vm_compute.
  - apply (bool_decide_unpack _). by vm_compute.
Defined.

(** X7, a block name that no default block bears. *)
Lemma block_names_select_witness :
  generate_prompt (Some [py "plan"]) ∅ (agent_with []) = (Return [], agent_with []).
Proof.
  apply (proj2 (block_names_select (agent_with []) [py "plan"] ∅)).
  apply (bool_decide_unpack _). by vm_compute.
Defined.

(** X8, a model name without and with the prefix of its class. *)
Lemma set_model_prefixed_witness :
  BaseLLM.set_model (Some (py "openai/")) (py "gpt-4o") = py "openai/" ++ py "gpt-4o"
  /\ BaseLLM.set_model (Some (py "openai/")) (py "openai/gpt-4o") = py "openai/gpt-4o".
Proof.
  split.
  - apply (proj2 (proj2 (proj1 (proj2
             (set_model_prefixed (Some (py "openai/")) (py "gpt-4o")))
             (py "openai/") eq_refl))).
    by vm_compute.
  - apply (proj1 (proj2 (proj1 (proj2
             (set_model_prefixed (Some (py "openai/")) (py "openai/gpt-4o")))
             (py "openai/") eq_refl))).
    by vm_compute.
Defined.

(** X9, an object between fences. *)
Lemma unfence_fenced_witness :
  unfence (py "```json" ++ py "\n{\x22q\x22: 1}\n" ++ py "```")
  = strip (py "\n{\x22q\x22: 1}\n").
Proof.
  apply (proj1 (unfence_fenced (py "\n{\x22q\x22: 1}\n") eq_refl)).
Defined.

(** X10, an input cut before its closing brace. *)
Lemma parse_action_without_closing_brace_witness :
  _parse_action
    ([] ++ py "Action:" ++ py " " ++ py "search" ++ py "\nAction Input:" ++ py " "
     ++ py "{\n\x22q\x22: 1")
  = Raise parse_error.
Proof.
  etrans.
  - apply (parse_action_without_closing_brace [] (py " ") (py "search") (py " ")
             (py "{\n\x22q\x22: 1")); by vm_compute.
  - by vm_compute.
Defined.

(** X11, a model that answers with its prompt. *)
Lemma run_llm_outcomes_witness :
  _run_llm (py "hello") (agent_with [])
  = (Return (VStr (py "hello")),
     set_run_depends [dependency_of echo_llm] (log_llm_prompt (py "hello") (agent_with []))).
Proof.
  apply (proj1 (proj2 (run_llm_outcomes (py "hello") (agent_with []))
           {| status := SUCCESS; output := {[ py "content" := VStr (py "hello") ]} |}
           eq_refl)).
Defined.

(** X12, a first run without [input]: the block [request] cannot be
    formatted. *)
Lemma execute_outcomes_witness :
  execute ∅ (agent_with [])
  = (Raise (PyException KeyError [VStr (py "input")]),
     set_prompt_variables (∅ ∪ _prompt_variables (agent_with []))
       (set_run_depends [] (set_intermediate_steps ∅ (agent_with [])))).
Proof.
  apply (proj1 (execute_outcomes ∅ (agent_with []))).
  by vm_compute.
Defined.

(** X13, the action [report] added to a manager and run. *)
Lemma add_action_then_execute_witness :
  fst (AgentManager.execute {[ py "action" := VStr (py "report") ]}
         (snd (AgentManager.add_action (py "report") quiet manager)))
  = Return {| content := VDict [(py "action", VStr (py "report"));
                                (py "result", VStr (py "done"))];
              intermediate_steps := ∅ |}.
Proof.
  apply (proj1 (add_action_then_execute manager (py "report") quiet
           {[ py "action" := VStr (py "report") ]} (VStr (py "done"))
           (set_prompt_variables
              ({[ py "action" := VStr (py "report") ]}
               ∪ _prompt_variables (AgentManager.agent manager))
              (set_run_depends []
                 (set_intermediate_steps ∅ (AgentManager.agent manager))))
           ltac:(done) ltac:(by vm_compute) ltac:(by vm_compute))).
Defined.

(** X14, a list given as the action. *)
Lemma manager_execute_raises_witness :
  PyException TypeError [VStr (py "unhashable type: 'list'")]
  = AgentManager.invalid_action
      (default VNone
         (({[ py "action" := VList [VInt 1] ]} : gmap str pyval) !! py "action"))
      (AgentManager._actions manager)
  \/ (hashable
        (default VNone
           (({[ py "action" := VList [VInt 1] ]} : gmap str pyval) !! py "action"))
      = false
      /\ PyException TypeError [VStr (py "unhashable type: 'list'")]
         = unhashable
             (default VNone
                (({[ py "action" := VList [VInt 1] ]} : gmap str pyval) !! py "action")))
  \/ exists k f,
       ({[ py "action" := VList [VInt 1] ]} : gmap str pyval) !! py "action"
       = Some (VStr k)
       /\ dict_get k (AgentManager._actions manager) = Some f
       /\ fst (AgentManager.call f
                 (set_prompt_variables
                    ({[ py "action" := VList [VInt 1] ]}
                     ∪ _prompt_variables (AgentManager.agent manager))
                    (set_run_depends []
                       (set_intermediate_steps ∅ (AgentManager.agent manager)))))
          = Raise (PyException TypeError [VStr (py "unhashable type: 'list'")]).
Proof.
  apply (manager_execute_raises manager
           (AgentManager.set_agent
              (set_run_depends [] (set_intermediate_steps ∅ (AgentManager.agent manager)))
              manager)
           {[ py "action" := VList [VInt 1] ]}
           (PyException TypeError [VStr (py "unhashable type: 'list'")])).
  by vm_compute.
Defined.

(** X16, an agent with two tools. *)
Lemma tool_listings_split_back_witness :
  split_on 44 (py "search,flaky") = [py "search"; py "flaky"]
  /\ splitlines (py "search: Looks things up.\nflaky: Fails.")
     = [py "search: Looks things up."; py "flaky: Fails."].
Proof.
  split.
  - apply (proj1 (tool_listings_split_back
             (agent_with [search_tool (py "t1") (py "a"); failing_tool true]))).
    + done.
    + repeat constructor.
  - apply (proj1 (proj2 (tool_listings_split_back
             (agent_with [search_tool (py "t1") (py "a"); failing_tool true])))).
    repeat constructor.
Defined.
End MoreCases.
